(** * Facial-Expression-Detection: the helper module [Utils.py] and the
      classifier / playlist glue of [main.py]

    The Python code is embedded shallowly.  A Python function that touches
    process-wide or external state (the [logging] registry, an ODBC
    connection, the file system) becomes a function from a world to an
    outcome and a new world; an outcome is either a returned value or a
    raised exception.  External libraries (the YAML parser, the ODBC driver,
    the Keras model, [os.path]) are interfaces whose operations are taken as
    parameters. *)

From Stdlib Require Import String Ascii List ZArith Lia Bool DecimalString.
From stdpp Require Import gmap strings list.

Local Open Scope string_scope.
Local Open Scope list_scope.

(** ** Python outcomes *)

Module Py.

(** The exceptions the two modules can raise or let through. *)
Inductive exn : Type :=
| ValueError (msg : string)
| IndexError (msg : string)
| KeyError (key : string)
| OSError (path : string)
| SystemExit (code : Z)
| DriverError (msg : string)
| TypeError (msg : string)
| ParseError (path : string).

Inductive outcome (A : Type) : Type :=
| Return (a : A)
| Raise (e : exn).
Arguments Return {A} a.
Arguments Raise {A} e.

(** A computation over a world [W]: the world is threaded through, and what
    was done before an exception stays done. *)
Definition py (W A : Type) : Type := W -> outcome A * W.

Definition ret {W A} (a : A) : py W A := fun w => (Return a, w).
Definition raise {W A} (e : exn) : py W A := fun w => (Raise e, w).
Definition bind {W A B} (m : py W A) (k : A -> py W B) : py W B :=
  fun w => match m w with
           | (Return a, w') => k a w'
           | (Raise e, w') => (Raise e, w')
           end.
Definition gets {W A} (f : W -> A) : py W A := fun w => (Return (f w), w).
Definition modify {W} (f : W -> W) : py W unit := fun w => (Return tt, f w).

Definition lift {W A} (o : outcome A) : py W A := fun w => (o, w).

(** [xs[0]] *)
Definition first_item {A} (xs : list A) : outcome A :=
  match xs with
  | x :: _ => Return x
  | [] => Raise (IndexError "list index out of range")
  end.

(** The sequencing notations [x ← m; k] and [m;; k] are stdpp's. *)
#[export] Instance py_ret {W} : MRet (py W) := fun A => @ret W A.
#[export] Instance py_bind {W} : MBind (py W) := fun A B k m => @bind W A B m k.

(** [sep.join(items)] *)
Fixpoint join (sep : string) (items : list string) : string :=
  match items with
  | [] => ""
  | [x] => x
  | x :: rest => x +:+ sep +:+ join sep rest
  end.

(** [template.format(a1, ..., an)] for templates whose only replacement fields are
    the automatic [{}]; every call in the two modules passes as many
    arguments as its template has fields. *)
Fixpoint py_format (template : string) (args : list string) : string :=
  match template with
  | String "{" (String "}" rest) =>
      match args with
      | a :: args' => a +:+ py_format rest args'
      | [] => py_format rest []
      end
  | String c rest => String c (py_format rest args)
  | EmptyString => ""
  end.

(** The platform's [os.path]. *)
Class OsPath := { os_path_join : string -> string -> string }.

(** [posixpath.join] for two components. *)
Definition ends_with_sep (s : string) : bool :=
  match rev (list_ascii_of_string s) with
  | c :: _ => Ascii.eqb c "/"
  | [] => false
  end.

Definition posix_join (a b : string) : string :=
  match b with
  | String c _ => if Ascii.eqb c "/" then b
                  else if (String.eqb a "" || ends_with_sep a)%bool then a +:+ b
                  else a +:+ "/" +:+ b
  | EmptyString => if (String.eqb a "" || ends_with_sep a)%bool then a
                   else a +:+ "/"
  end.

End Py.

Import Py.

(** ** The [logging] and [datetime] libraries, as far as [get_logger] uses them *)

Module Logging.

Record datetime : Type := mk_datetime
  { year : nat; month : nat; day : nat; hour : nat; minute : nat; second : nat }.

Definition decimal (n : nat) : string := NilEmpty.string_of_uint (Nat.to_uint n).

(** [%m], [%d], [%H], [%M], [%S]: two digits, zero padded. *)
Definition two_digits (n : nat) : string :=
  if Nat.ltb n 10 then "0" +:+ decimal n else decimal n.

(** [%Y]: four digits, zero padded. *)
Definition four_digits (n : nat) : string :=
  if Nat.ltb n 10 then "000" +:+ decimal n
  else if Nat.ltb n 100 then "00" +:+ decimal n
  else if Nat.ltb n 1000 then "0" +:+ decimal n
  else decimal n.

(** [t.strftime('%Y-%m-%d_%H_%M_%S')] *)
Definition strftime_file (t : datetime) : string :=
  four_digits (year t) +:+ "-" +:+ two_digits (month t) +:+ "-" +:+ two_digits (day t)
  +:+ "_" +:+ two_digits (hour t) +:+ "_" +:+ two_digits (minute t)
  +:+ "_" +:+ two_digits (second t).

Inductive level : Type := NOTSET | DEBUG | INFO | WARNING | ERROR | CRITICAL.

Record Formatter : Type := mk_Formatter { fmt : string; datefmt : string }.

(** A handler object.  The file of a [FileHandler] is opened when the handler
    is constructed, see [new_FileHandler] below. *)
Inductive Handler : Type :=
| FileHandler (filename mode : string) (formatter : option Formatter)
| StreamHandler (formatter : option Formatter).

Definition setFormatter (h : Handler) (f : Formatter) : Handler :=
  match h with
  | FileHandler p m _ => FileHandler p m (Some f)
  | StreamHandler _ => StreamHandler (Some f)
  end.

Definition is_file_handler (h : Handler) : bool :=
  match h with FileHandler _ _ _ => true | StreamHandler _ => false end.
Definition is_console_handler (h : Handler) : bool :=
  match h with FileHandler _ _ _ => false | StreamHandler _ => true end.

(** A logger object.  A logger is referred to by its name, the root logger by
    [root]; [parent] is the reference the manager has set, none before. *)
Record Logger : Type := mk_Logger
  { propagate : bool; lvl : level; handlers : list Handler; parent : option string }.

(** What [Logger.manager.loggerDict] holds under a name: a logger, or a
    [PlaceHolder] with the loggers registered below that name. *)
Inductive registration : Type :=
| ALogger (l : Logger)
| APlaceHolder (loggerMap : list string).

(** The state [get_logger] works on: the clock, which is read and never set;
    the root logger and the manager's dictionary; what opening a file for
    writing would raise on this machine, if anything ([FileNotFoundError] or
    another [OSError] for a directory that is missing or closed to the
    process, [ValueError] for a NUL in the name); and the files opened for
    writing so far, each truncated by it. *)
Record world : Type := mk_world
  { clock : datetime;
    root_logger : Logger;
    loggerDict : gmap string registration;
    open_raises : string -> option exn;
    files_opened : list string }.

(** [Logger(name)] *)
Definition new_Logger : Logger :=
  {| propagate := true; lvl := NOTSET; handlers := []; parent := None |}.

Definition datetime_now : py world datetime := gets clock.

(** [logging.getLogger] answers the empty name and the root's own name,
    [root], with the root logger. *)
Definition is_root (name : string) : bool :=
  (String.eqb name "" || String.eqb name "root")%bool.

(** The logger a reference stands for; a name that holds no logger yet
    stands for the one [getLogger] would make. *)
Definition the_logger (w : world) (name : string) : Logger :=
  if is_root name then root_logger w
  else match loggerDict w !! name with
       | Some (ALogger l) => l
       | _ => new_Logger
       end.

Definition updated (name : string) (f : Logger -> Logger) (w : world) : world :=
  if is_root name
  then {| clock := clock w; root_logger := f (root_logger w);
          loggerDict := loggerDict w;
          open_raises := open_raises w; files_opened := files_opened w |}
  else {| clock := clock w; root_logger := root_logger w;
          loggerDict := <[name := ALogger (f (the_logger w name))]> (loggerDict w);
          open_raises := open_raises w; files_opened := files_opened w |}.

(** An assignment to an attribute of a logger. *)
Definition update_logger (name : string) (f : Logger -> Logger) : py world unit :=
  modify (updated name f).

(** *** The manager's bookkeeping *)

Definition set_parent (name : string) (p : option string)
    (d : gmap string registration) : gmap string registration :=
  match d !! name with
  | Some (ALogger l) =>
      <[name := ALogger {| propagate := propagate l; lvl := lvl l;
                           handlers := handlers l; parent := p |}]> d
  | _ => d
  end.

(** [PlaceHolder.append] *)
Definition placeholder_append (loggerMap : list string) (alogger : string) : list string :=
  if existsb (String.eqb alogger) loggerMap then loggerMap else loggerMap ++ [alogger].

(** [s.rfind(".", 0, stop)]: the last index below [stop] that holds a dot. *)
Fixpoint last_dot (cs : list ascii) (i : nat) (found : option nat) : option nat :=
  match cs with
  | [] => found
  | c :: cs' => last_dot cs' (S i) (if Ascii.eqb c "." then Some i else found)
  end.

Definition rfind_dot (s : string) (stop : nat) : option nat :=
  last_dot (firstn stop (list_ascii_of_string s)) 0 None.

(** The values [i] takes in the loop of [Manager._fixupParents]:
    [i = name.rfind(".")], then [i = name.rfind(".", 0, i - 1)], while
    [i > 0]. *)
Fixpoint prefix_cuts (fuel : nat) (name : string) (i : option nat) : list nat :=
  match fuel, i with
  | S fuel', Some (S j) => S j :: prefix_cuts fuel' name (rfind_dot name j)
  | _, _ => []
  end.

(** The loop of [Manager._fixupParents]: every dotted prefix of the name
    gets a place holder, or has the logger added to the one it holds, until
    a prefix holds a logger, which is the parent found. *)
Fixpoint fixup_loop (alogger : string) (cuts : list nat) (d : gmap string registration)
  : option string * gmap string registration :=
  match cuts with
  | [] => (None, d)
  | i :: cuts' =>
      let substr := String.substring 0 i alogger in
      match d !! substr with
      | None => fixup_loop alogger cuts' (<[substr := APlaceHolder [alogger]]> d)
      | Some (ALogger _) => (Some substr, d)
      | Some (APlaceHolder loggerMap) =>
          fixup_loop alogger cuts'
            (<[substr := APlaceHolder (placeholder_append loggerMap alogger)]> d)
      end
  end.

(** [Manager._fixupParents(alogger)]; the parent is the root when no prefix
    holds a logger. *)
Definition fixupParents (alogger : string) (d : gmap string registration)
  : gmap string registration :=
  let '(rv, d') :=
    fixup_loop alogger
      (prefix_cuts (String.length alogger) alogger
         (rfind_dot alogger (String.length alogger))) d in
  set_parent alogger (Some (default "root" rv)) d'.

(** [Manager._fixupChildren(ph, alogger)]: a logger of the place holder whose
    parent's name does not begin with the new name moves below the new
    logger, which takes over its parent. *)
Definition fixupChildren (alogger : string) (loggerMap : list string)
    (d : gmap string registration) : gmap string registration :=
  fold_left
    (fun d c =>
       match d !! c with
       | Some (ALogger lc) =>
           match parent lc with
           | Some p =>
               if String.eqb (String.substring 0 (String.length alogger) p) alogger
               then d
               else set_parent c (Some alogger) (set_parent alogger (Some p) d)
           | None => d
           end
       | _ => d
       end)
    loggerMap d.

(** [Manager.getLogger(name)] *)
Definition registered (name : string) (w : world) : world :=
  let d := loggerDict w in
  let d' :=
    match d !! name with
    | Some (ALogger _) => d
    | Some (APlaceHolder loggerMap) =>
        fixupParents name (fixupChildren name loggerMap (<[name := ALogger new_Logger]> d))
    | None => fixupParents name (<[name := ALogger new_Logger]> d)
    end in
  {| clock := clock w; root_logger := root_logger w; loggerDict := d';
     open_raises := open_raises w; files_opened := files_opened w |}.

(** [logging.getLogger(name)]: the logger registered under [name], created
    and registered on first use. *)
Definition getLogger (name : string) : py world string :=
  if is_root name then mret name
  else modify (registered name);; mret name.

Definition set_propagate (lg : string) (b : bool) : py world unit :=
  update_logger lg (fun l => {| propagate := b; lvl := lvl l; handlers := handlers l;
                                parent := parent l |}).

Definition setLevel (lg : string) (v : level) : py world unit :=
  update_logger lg (fun l => {| propagate := propagate l; lvl := v;
                                handlers := handlers l; parent := parent l |}).

(** [Logger.addHandler]: a handler object that is not yet in the list is
    appended; a freshly constructed handler never is. *)
Definition addHandler (lg : string) (h : Handler) : py world unit :=
  update_logger lg (fun l => {| propagate := propagate l; lvl := lvl l;
                                handlers := handlers l ++ [h]; parent := parent l |}).

Definition note_opened (filename : string) (w : world) : world :=
  {| clock := clock w; root_logger := root_logger w;
     loggerDict := loggerDict w; open_raises := open_raises w;
     files_opened := files_opened w ++ [filename] |}.

(** [logging.FileHandler(filename, mode)]: the constructor opens the file;
    what [open] raises leaves through it, and no handler is made. *)
Definition new_FileHandler (filename mode : string) : py world Handler :=
  fun w => match open_raises w filename with
           | Some e => (Raise e, w)
           | None => (Return (FileHandler filename mode None), note_opened filename w)
           end.

(** [logging.StreamHandler()] *)
Definition new_StreamHandler : py world Handler := mret (StreamHandler None).

End Logging.

(** ** Tables: [numpy] arrays and [pandas] data frames *)

Module Pandas.

(** The table cells that this model covers: [None] (SQL [NULL]), a truth
    value ([bit]), an integer of at most 64 bits ([int], [bigint] and the
    like) and text.  What the driver returns for other column types
    ([Decimal], [float], [datetime]) is outside the model. *)
Inductive cell : Type :=
| CNone
| CBool (b : bool)
| CInt (z : Z)
| CStr (s : string).

Inductive dtype : Type := DBool | DInt | DStr | DObject.

Definition dtype_of (c : cell) : dtype :=
  match c with CNone => DObject | CBool _ => DBool | CInt _ => DInt | CStr _ => DStr end.

(** numpy's promotion of two element types. *)
Definition promote (a b : dtype) : dtype :=
  match a, b with
  | DObject, _ | _, DObject => DObject
  | DStr, _ | _, DStr => DStr
  | DInt, _ | _, DInt => DInt
  | DBool, DBool => DBool
  end.

Definition decimal_Z (z : Z) : string := NilZero.string_of_int (Z.to_int z).

Definition cast (d : dtype) (c : cell) : cell :=
  match d, c with
  | DInt, CBool b => CInt (if b then 1 else 0)
  | DStr, CBool b => CStr (if b then "True" else "False")
  | DStr, CInt z => CStr (decimal_Z z)
  | _, _ => c
  end.

Definition common_dtype (data : list (list cell)) : dtype :=
  match concat data with
  | [] => DObject
  | c :: cs => fold_left (fun d x => promote d (dtype_of x)) cs (dtype_of c)
  end.

Definition rectangular (width : nat) (data : list (list cell)) : bool :=
  forallb (fun r => Nat.eqb (length r) width) data.

(** [np.array(data)] for a list of rows: a two-dimensional array of one
    element type; rows of unequal length are refused. *)
Definition np_array (data : list (list cell)) : outcome (list (list cell)) :=
  match data with
  | [] => Return []
  | r :: _ =>
      if rectangular (length r) data
      then Return (map (map (cast (common_dtype data))) data)
      else Raise (ValueError "setting an array element with a sequence")
  end.

Record DataFrame : Type := mk_DataFrame
  { columns : list string; values : list (list cell) }.

(** [df.shape] *)
Definition shape (df : DataFrame) : nat * nat := (length (values df), length (columns df)).

(** [pd.DataFrame(array, columns=cols)] *)
Definition DataFrame_of_array (arr : list (list cell)) (cols : list string) : outcome DataFrame :=
  if rectangular (length cols) arr
  then Return {| columns := cols; values := arr |}
  else Raise (ValueError "Shape of passed values does not match the columns").

(** [pd.DataFrame(columns=cols)] *)
Definition DataFrame_empty (cols : list string) : DataFrame :=
  {| columns := cols; values := [] |}.

(** [df.values.tolist()] *)
Definition values_tolist (df : DataFrame) : list (list cell) := values df.

(** The cells of a row under their column labels. *)
Definition labelled (df : DataFrame) (row : list cell) : list (string * cell) :=
  combine (columns df) row.

(** [df.drop(label, axis=1)]: every column carrying the label goes; a label
    that no column carries is a [KeyError]. *)
Definition drop (label : string) (df : DataFrame) : outcome DataFrame :=
  if existsb (String.eqb label) (columns df)
  then Return
         {| columns := List.filter (fun c => negb (String.eqb label c)) (columns df);
            values := map (fun row =>
                             map snd (List.filter (fun p => negb (String.eqb label (fst p)))
                                        (labelled df row)))
                          (values df) |}
  else Raise (KeyError label).

(** [df[label].tolist()]: the cells of the first column carrying the label. *)
Definition column (label : string) (df : DataFrame) : list (option cell) :=
  map (fun row => snd <$> find (fun p => String.eqb label (fst p)) (labelled df row))
      (values df).

End Pandas.

(** ** The ODBC driver ([pyodbc]) *)

Module Odbc.
Import Pandas.

(** A connection object is known by the number the driver gave it. *)
Definition connection : Type := nat.

(** What the program asked of the driver, newest first. *)
Inductive event : Type :=
| EvConnect (conn_str : string) (h : connection)
| EvConnectRefused (conn_str : string)
| EvCursor (h : connection)
| EvExecute (h : connection) (sql : string)
| EvExecuteMany (h : connection) (sql : string) (params : list (list cell))
| EvCommit (h : connection)
| EvClose (h : connection).

Definition world : Type := list event.

(** A column of [cursor.description]: its name and type code (the other
    five entries of the 7-tuple are not read). *)
Definition column_desc : Type := string * string.

Record result_set : Type := mk_result_set
  { description : list column_desc; rows : list (list cell) }.

(** The database server behind the driver: what it answers depends on what
    it was asked before. *)
Class Server : Type :=
  { srv_connect : world -> string -> option string;
    srv_execute : world -> connection -> string -> string + option result_set;
    srv_executemany : world -> connection -> string -> list (list cell) -> option string }.

Fixpoint is_open (h : connection) (tr : world) : bool :=
  match tr with
  | [] => false
  | EvConnect _ h' :: tr' => if Nat.eqb h h' then true else is_open h tr'
  | EvClose h' :: tr' => if Nat.eqb h h' then false else is_open h tr'
  | _ :: tr' => is_open h tr'
  end.

Definition opened (tr : world) : nat :=
  length (List.filter (fun e => match e with EvConnect _ _ => true | _ => false end) tr).

Record Cursor : Type := mk_Cursor
  { cur_conn : connection; cur_result : option result_set }.

Section Driver.
Context `{Server}.

(** [pyodbc.connect(conn_str)] *)
Definition connect (conn_str : string) : py world connection :=
  fun tr => match srv_connect tr conn_str with
            | Some err => (Raise (DriverError err), EvConnectRefused conn_str :: tr)
            | None => let h := opened tr in (Return h, EvConnect conn_str h :: tr)
            end.

Definition closed_error {A} : py world A :=
  raise (DriverError "Attempt to use a closed connection.").

(** [conn.cursor()] *)
Definition conn_cursor (h : connection) : py world Cursor :=
  fun tr => if is_open h tr
            then (Return {| cur_conn := h; cur_result := None |}, EvCursor h :: tr)
            else closed_error tr.

(** [cursor.execute(sql)] *)
Definition cursor_execute (c : Cursor) (sql : string) : py world Cursor :=
  fun tr => if is_open (cur_conn c) tr
            then match srv_execute tr (cur_conn c) sql with
                 | inl err => (Raise (DriverError err), EvExecute (cur_conn c) sql :: tr)
                 | inr rs => (Return {| cur_conn := cur_conn c; cur_result := rs |},
                              EvExecute (cur_conn c) sql :: tr)
                 end
            else closed_error tr.

(** [cursor.fetchall()] *)
Definition cursor_fetchall (c : Cursor) : py world (list (list cell)) :=
  match cur_result c with
  | Some rs => mret (rows rs)
  | None => raise (DriverError "No results.  Previous SQL was not a query.")
  end.

(** [cursor.description] *)
Definition cursor_description (c : Cursor) : option (list column_desc) :=
  description <$> cur_result c.

(** [cursor.executemany(sql, params)] *)
Definition cursor_executemany (c : Cursor) (sql : string) (params : list (list cell))
  : py world unit :=
  fun tr => if is_open (cur_conn c) tr
            then match srv_executemany tr (cur_conn c) sql params with
                 | Some err => (Raise (DriverError err),
                                EvExecuteMany (cur_conn c) sql params :: tr)
                 | None => (Return tt, EvExecuteMany (cur_conn c) sql params :: tr)
                 end
            else closed_error tr.

(** [cursor.commit()] *)
Definition cursor_commit (c : Cursor) : py world unit :=
  fun tr => if is_open (cur_conn c) tr
            then (Return tt, EvCommit (cur_conn c) :: tr)
            else closed_error tr.

(** [conn.close()] *)
Definition conn_close (h : connection) : py world unit :=
  fun tr => if is_open h tr
            then (Return tt, EvClose h :: tr)
            else closed_error tr.

End Driver.
End Odbc.

(** ** Files, [yaml] documents and spreadsheets *)

Module Os.
Import Pandas.

Inductive node : Type :=
| File (content : string)
| Dir (entries : list string).

(** The file system as the process finds it, by path, and what was printed.
    A path holds what the process can read there: a file with its bytes, or
    a directory with its entries.  A path that does not exist holds nothing,
    and neither does one that the process is not allowed to open: [open],
    [os.listdir] and [pd.read_excel] raise an [OSError] for both
    ([FileNotFoundError], [PermissionError]). *)
Record world : Type := mk_world
  { files : gmap string node; stdout : list string }.

(** A parsed YAML document.  A mapping lists each key once. *)
#[warnings="-register-all"]
Inductive yaml : Type :=
| YNone
| YBool (b : bool)
| YInt (z : Z)
| YStr (s : string)
| YSeq (items : list yaml)
| YMap (items : list (string * yaml)).

(** [v[key]] for a string key *)
Definition getitem (v : yaml) (key : string) : outcome yaml :=
  match v with
  | YMap items =>
      match find (fun p => String.eqb key (fst p)) items with
      | Some p => Return (snd p)
      | None => Raise (KeyError key)
      end
  | YStr _ | YSeq _ => Raise (TypeError "indices must be integers")
  | _ => Raise (TypeError "object is not subscriptable")
  end.

(** What [yaml.safe_load] makes of a text-mode stream over a file's bytes,
    which it decodes and parses as it reads: the document it loaded; a
    [yaml.YAMLError] of the scanner, parser or composer, with its text; or
    another exception, which is none of [yaml]'s: [UnicodeDecodeError] (a
    [ValueError]) for bytes that are no text in the stream's encoding, a
    [ValueError] of a constructor, as for a date with a thirteenth month. *)
Inductive loaded : Type :=
| Parsed (conf : yaml)
| YAMLError (exc : string)
| Failed (e : exn).

(** The parsers of the [yaml] and [pandas] libraries, on a file's bytes. *)
Class Parsers : Type :=
  { yaml_safe_load : string -> loaded;
    excel_parse : string -> option DataFrame }.

(** [open(path, "r")], and the bytes the stream is over: nothing is read or
    decoded before [yaml.safe_load] does it. *)
Definition open_read (path : string) : py world string :=
  fun w => match files w !! path with
           | Some (File content) => (Return content, w)
           | _ => (Raise (OSError path), w)
           end.

(** [print(x)] *)
Definition print (line : string) : py world unit :=
  modify (fun w => {| files := files w; stdout := stdout w ++ [line] |}).

(** [os.listdir(path)] *)
Definition listdir (path : string) : py world (list string) :=
  fun w => match files w !! path with
           | Some (Dir entries) => (Return entries, w)
           | _ => (Raise (OSError path), w)
           end.

(** [pd.read_excel(path)] *)
Definition read_excel `{Parsers} (path : string) : py world DataFrame :=
  fun w => match files w !! path with
           | Some (File content) =>
               match excel_parse content with
               | Some df => (Return df, w)
               | None => (Raise (ParseError path), w)
               end
           | _ => (Raise (OSError path), w)
           end.

End Os.

(** ** [Utils.py] *)

Module Utils.
Import Logging Pandas Odbc.

(** The overloads that [multipledispatch] selects by the number and types of
    the arguments are separate functions here; the suffix names the
    overload. *)

Section Common.
Context `{Os.Parsers}.

Definition load_config (file_path : string) : py Os.world Os.yaml :=
  let conf := Os.YMap [] in
  conf_file ← Os.open_read file_path;
  match Os.yaml_safe_load conf_file with
  | Os.Parsed conf => mret conf
  | Os.YAMLError exc => Os.print exc;; raise (SystemExit 0)
  | Os.Failed e => raise e
  end.

End Common.

Definition credential_string (server db_name username password : string) : string :=
  py_format "DRIVER=SQL Server;SERVER={};DATABASE={};UID={};PWD={}"
            [server; db_name; username; password].

Definition trusted_string (server db_name : string) : string :=
  py_format "Driver=SQL Server;SERVER={};DATABASE={};Trusted_Connection=yes;"
            [server; db_name].

(** [cols] after the loop
    [for i, _ in enumerate(description): cols.append(description[i][0])] *)
Definition description_names (description : list column_desc) : list string :=
  fold_left (fun cols i => match description !! i with
                           | Some d => cols ++ [fst d]
                           | None => cols
                           end)
            (seq 0 (length description)) [].

(** [['?' for i in range(n)]] *)
Definition placeholders (n : nat) : list string := map (fun _ => "?") (seq 0 n).

Definition insert_statement (table_name : string) (column_list : list string)
    (value_df : DataFrame) : string :=
  py_format "INSERT INTO {} ({}) VALUES ({})"
            [table_name; join "," column_list; join "," (placeholders (snd (shape value_df)))].

Section Database.
Context `{Server}.

Definition get_mssql_db_connection (server db_name username password : string)
  : py Odbc.world connection :=
  connect (credential_string server db_name username password).

Definition get_mssql_db_connection_trusted (server db_name : string)
  : py Odbc.world connection :=
  connect (trusted_string server db_name).

Definition read_from_mssql_db (db_con : connection) (sql : string)
  : py Odbc.world DataFrame :=
  cursor ← conn_cursor db_con;
  cursor ← cursor_execute cursor sql;
  data ← cursor_fetchall cursor;
  match cursor_description cursor with
  | None => raise (TypeError "'NoneType' object is not iterable")
  | Some description =>
      let cols := description_names description in
      if Nat.ltb 0 (length data)
      then arr ← lift (np_array data); lift (DataFrame_of_array arr cols)
      else mret (DataFrame_empty cols)
  end.

Definition read_from_mssql_db_credentials (server db_name username password sql : string)
  : py Odbc.world DataFrame :=
  conn ← get_mssql_db_connection server db_name username password;
  data ← read_from_mssql_db conn sql;
  conn_close conn;;
  mret data.

Definition read_from_mssql_db_trusted (server db_name sql : string)
  : py Odbc.world DataFrame :=
  conn ← get_mssql_db_connection_trusted server db_name;
  data ← read_from_mssql_db conn sql;
  conn_close conn;;
  mret data.

Definition write_to_mssql_db (db_con : connection) (table_name : string)
    (column_list : list string) (value_df : DataFrame) : py Odbc.world unit :=
  (if Nat.eqb (fst (shape value_df)) 0
   then raise (ValueError "Data frmae is empty")
   else mret tt);;
  cursor ← conn_cursor db_con;
  cursor_executemany cursor (insert_statement table_name column_list value_df)
                     (values_tolist value_df);;
  cursor_commit cursor.

Definition write_to_mssql_db_credentials (server db_name username password : string)
    (table_name : string) (column_list : list string) (value_df : DataFrame)
  : py Odbc.world unit :=
  conn ← get_mssql_db_connection server db_name username password;
  write_to_mssql_db conn table_name column_list value_df;;
  conn_close conn.

Definition write_to_mssql_db_trusted (server db_name : string)
    (table_name : string) (column_list : list string) (value_df : DataFrame)
  : py Odbc.world unit :=
  conn ← get_mssql_db_connection_trusted server db_name;
  write_to_mssql_db conn table_name column_list value_df;;
  conn_close conn.

End Database.

Section GetLogger.
Context `{OsPath}.

Definition get_logger (logging_path logger_name : string)
    (write_to_file write_to_console debug : bool) : py Logging.world string :=
  now ← datetime_now;
  let log_path := os_path_join logging_path
                    (logger_name +:+ "_" +:+ strftime_file now +:+ ".log") in
  let logFormatter :=
    mk_Formatter
      "%(asctime)s |%(levelname)-5s |%(filename)-8s |%(lineno)-4s|%(funcName)-15s |%(message)s"
      "%Y-%m-%d %H:%M:%S" in
  logger ← getLogger log_path;
  set_propagate logger false;;
  setLevel logger INFO;;
  (if negb write_to_file && write_to_console
   then raise (ValueError "Need to enable either file writing or console writing")
   else mret tt);;
  (if write_to_file
   then fileHandler ← new_FileHandler log_path "w";
        let fileHandler := setFormatter fileHandler logFormatter in
        addHandler logger fileHandler
   else mret tt);;
  (if write_to_console
   then consoleHandler ← new_StreamHandler;
        let consoleHandler := setFormatter consoleHandler logFormatter in
        addHandler logger consoleHandler
   else mret tt);;
  (if debug then setLevel logger DEBUG else mret tt);;
  mret logger.

End GetLogger.
End Utils.


(** ** [main.py] *)

Module Main.
Import Pandas Os.

(** The pre-trained Keras model that [load_model] reads at import time. *)
Class Model : Type :=
  { tensor : Type;
    tensor_shape : tensor -> list nat;
    score : Type;
    score_gt : score -> score -> bool;
    predict_on_batch : tensor -> outcome (list (list score)) }.

Definition class_dict : gmap nat string :=
  list_to_map [(0, "Angry"); (1, "Happy"); (2, "Neutral"); (3, "Sad")].

Section Classifier.
Context `{Model}.

(** [a.argmax()] on the flattened array: the first index that holds the
    largest entry. *)
Fixpoint argmax_from (best : score) (best_i i : nat) (xs : list score) : nat :=
  match xs with
  | [] => best_i
  | x :: xs' => if score_gt x best then argmax_from x i (S i) xs'
                else argmax_from best best_i (S i) xs'
  end.

Definition argmax (a : list (list score)) : outcome nat :=
  match concat a with
  | [] => Raise (ValueError "attempt to get argmax of an empty sequence")
  | x :: xs => Return (argmax_from x 0 1 xs)
  end.

Definition classifer (img_tensor : tensor) : outcome string :=
  match predict_on_batch img_tensor with
  | Raise e => Raise e
  | Return result =>
      match argmax result with
      | Raise e => Raise e
      | Return label =>
          match class_dict !! label with
          | Some name => Return name
          | None => Raise (KeyError (Logging.decimal label))
          end
      end
  end.

End Classifier.

Section Playlist.
Context `{OsPath} `{Parsers}.
(** The module-level [configs], loaded once at import. *)
Variable configs : yaml.

Definition fetch_song_list (emo_class : string) : py world DataFrame :=
  data ← lift (getitem configs "data");
  songs ← lift (getitem data "Songs");
  songs ← (match songs with
           | YStr s => mret s
           | _ => raise (TypeError "expected str, bytes or os.PathLike object")
           end);
  let emo_class_folder := os_path_join songs emo_class in
  entries ← listdir emo_class_folder;
  first ← lift (first_item entries);
  let song_excel_path := os_path_join emo_class_folder first in
  song_list_df ← read_excel song_excel_path;
  song_list_df ← lift (drop "ID" song_list_df);
  mret song_list_df.

End Playlist.
End Main.

(** ** Vocabulary of the statements *)

Import Logging Pandas Odbc Os.

Section LoggerVocabulary.
Context `{OsPath}.

Definition log_path (w : Logging.world) (logging_path logger_name : string) : string :=
  os_path_join logging_path (logger_name +:+ "_" +:+ strftime_file (clock w) +:+ ".log").

Definition logFormatter : Formatter :=
  mk_Formatter
    "%(asctime)s |%(levelname)-5s |%(filename)-8s |%(lineno)-4s|%(funcName)-15s |%(message)s"
    "%Y-%m-%d %H:%M:%S".

(** The handlers one call attaches, in the order it attaches them. *)
Definition attached (path : string) (write_to_file write_to_console : bool) : list Handler :=
  (if write_to_file then [FileHandler path "w" (Some logFormatter)] else [])
  ++ (if write_to_console then [StreamHandler (Some logFormatter)] else []).

Definition guard_message : string :=
  "Need to enable either file writing or console writing".

(** What a logger has of its own: the propagate flag, the level and the
    handlers (its parent is the manager's business). *)
Definition own (l : Logger) : bool * level * list Handler :=
  (propagate l, lvl l, handlers l).

(** Getting the logger of a name, registered on the way when it is not the
    root. *)
Definition entered (name : string) (w : Logging.world) : Logging.world :=
  if is_root name then w else registered name w.

(** Up to the guard: the logger is entered, told not to propagate and set to
    [INFO]. *)
Definition prepared (path : string) (w : Logging.world) : Logging.world :=
  snd ((set_propagate path false;; setLevel path INFO) (entered path w)).

Definition own_at (d : gmap string registration) (name : string)
  : option (bool * level * list Handler) :=
  match d !! name with
  | Some (ALogger l) => Some (own l)
  | _ => None
  end.

(** What a call for the logger [path] leaves alone: the clock, what opening
    a file would raise, what every logger registered under another name has
    of its own and, unless [path] names it, the root logger. *)
Definition leaves_alone (path : string) (w w' : Logging.world) : Prop :=
  clock w' = clock w
  /\ open_raises w' = open_raises w
  /\ (forall other, other <> path ->
        own_at (loggerDict w') other = own_at (loggerDict w) other)
  /\ (is_root path = false -> root_logger w' = root_logger w).

(** What the specification promises of a call that does not raise: the logger
    it returns has a file handler iff [write_to_file] and a console handler
    iff [write_to_console]. *)
Definition handlers_match_flags (lp ln : string) (wtf wtc dbg : bool)
    (w : Logging.world) : Prop :=
  exists lg w',
    Utils.get_logger lp ln wtf wtc dbg w = (Return lg, w')
    /\ existsb is_file_handler (handlers (the_logger w' lg)) = wtf
    /\ existsb is_console_handler (handlers (the_logger w' lg)) = wtc.

End LoggerVocabulary.

Section DatabaseVocabulary.
Context `{Server}.

(** [overload] opens a connection with [open], runs [inner] on it and closes
    it: whatever [inner] returns or raises, [overload] returns or raises; on
    a return the connection has been closed, on an exception it is left as it
    was. *)
Definition wraps_connection {A} (overload : py Odbc.world A)
    (open : py Odbc.world connection) (inner : connection -> py Odbc.world A) : Prop :=
  forall w,
    match open w with
    | (Raise e, w1) => overload w = (Raise e, w1)
    | (Return conn, w1) =>
        is_open conn w1 = true
        /\ match inner conn w1 with
           | (Return a, w2) =>
               overload w = (Return a, EvClose conn :: w2)
               /\ is_open conn (EvClose conn :: w2) = false
           | (Raise e, w2) => overload w = (Raise e, w2) /\ is_open conn w2 = true
           end
    end.

(** Run through the open connection [db_con] in world [w], the query [sql]
    has the result set [rs]: a table, every row as wide as the description. *)
Definition yields_result_set (db_con : connection) (sql : string) (w : Odbc.world)
    (rs : result_set) : Prop :=
  is_open db_con w = true
  /\ srv_execute (EvCursor db_con :: w) db_con sql = inr (Some rs)
  /\ rectangular (length (description rs)) (rows rs) = true.

End DatabaseVocabulary.

(** *** Reading a connection string

    An ODBC connection string is a sequence of [key=value] fields, each
    closed or separated by [;]. *)

Definition push_head (c : ascii) (pieces : list string) : list string :=
  match pieces with
  | piece :: rest => String c piece :: rest
  | [] => [String c ""]
  end.

Fixpoint split_on (sep : ascii) (s : string) : list string :=
  match s with
  | EmptyString => [""]
  | String c s' => if Ascii.eqb sep c then "" :: split_on sep s'
                   else push_head c (split_on sep s')
  end.

Definition append_head (a : string) (pieces : list string) : list string :=
  match pieces with
  | piece :: rest => (a +:+ piece) :: rest
  | [] => [a]
  end.

(** A field at its first [=]. *)
Fixpoint key_value (field : string) : string * string :=
  match field with
  | EmptyString => ("", "")
  | String c rest => if Ascii.eqb c "=" then ("", rest)
                     else (String c (fst (key_value rest)), snd (key_value rest))
  end.

Definition fields (conn_str : string) : list (string * string) :=
  map key_value (List.filter (fun f => negb (String.eqb f "")) (split_on ";" conn_str)).

(** What the specification says of the two connection strings, whatever the
    arguments: the string of the two-argument overload has the field
    [Trusted_Connection=yes] and no [UID] and no [PWD] field; the string of
    the four-argument overload has the user name as a [UID] field and the
    password as a [PWD] field. *)
Definition credentials_as_specified (server db_name username password : string) : Prop :=
  In ("Trusted_Connection", "yes") (fields (Utils.trusted_string server db_name))
  /\ (forall key value,
        In (key, value) (fields (Utils.trusted_string server db_name)) ->
        key <> "UID" /\ key <> "PWD")
  /\ In ("UID", username) (fields (Utils.credential_string server db_name username password))
  /\ In ("PWD", password) (fields (Utils.credential_string server db_name username password)).

(** Modelled from the spec: the pre-trained model file that [load_model]
    reads is not among the sources.  The specification describes the
    classifier as running a fixed-size grayscale image tensor through the
    model and taking the arg-max over four classes: on a batch of one 48 by 48
    one-channel image the model answers with one row of four scores. *)
Definition four_class_model `{Main.Model} : Prop :=
  forall t : Main.tensor,
    Main.tensor_shape t = [1; 48; 48; 1] ->
    exists row, Main.predict_on_batch t = Return [row] /\ length row = 4.

Definition emotion_labels : list string := ["Angry"; "Happy"; "Neutral"; "Sad"].

(** How often a character occurs in a string. *)
Fixpoint count_char (c : ascii) (s : string) : nat :=
  match s with
  | EmptyString => 0
  | String c' s' => (if Ascii.eqb c c' then 1 else 0) + count_char c s'
  end.

(** ** Concrete collaborators, to run the functions on *)

Module Demo.
Import Logging Pandas Odbc Os.

Definition posix : OsPath := {| os_path_join := posix_join |}.

(** A logging world with no logger yet, on 7 March 2026 at 09:05:00. *)
Definition quiet : Logging.world :=
  {| clock := mk_datetime 2026 3 7 9 5 0;
     root_logger := {| propagate := true; lvl := WARNING; handlers := [];
                       parent := None |};
     loggerDict := ∅;
     open_raises := fun path =>
       if String.prefix "logs/" path then None else Some (OSError path);
     files_opened := [] |}.

(** The same second, after [get_logger("logs", "app")] with both outputs on. *)
Definition after_first_call : Logging.world :=
  snd (@Utils.get_logger posix "logs" "app" true true false quiet).

(** A server with one table, [Songs(ID, Title)]: it lets every login in,
    answers the one query below with the rows written so far and refuses
    statements it does not know. *)
Definition songs_query : string := "SELECT ID, Title FROM Songs".
Definition songs_insert : string := "INSERT INTO Songs (ID,Title) VALUES (?,?)".

Fixpoint written (tr : Odbc.world) : list (list cell) :=
  match tr with
  | [] => []
  | EvExecuteMany _ sql params :: tr' =>
      if String.eqb sql songs_insert then written tr' ++ params else written tr'
  | _ :: tr' => written tr'
  end.

Definition songs_server : Server :=
  {| srv_connect := fun _ _ => None;
     srv_execute := fun tr _ sql =>
       if String.eqb sql songs_query
       then inr (Some {| description := [("ID", "int"); ("Title", "str")];
                         rows := written tr |})
       else inl "Incorrect syntax";
     srv_executemany := fun _ _ sql _ =>
       if String.eqb sql songs_insert then None else Some "Incorrect syntax" |}.

Definition two_songs : DataFrame :=
  {| columns := ["ID"; "Title"];
     values := [[CInt 1; CStr "Clair de lune"]; [CInt 2; CStr "Here comes the sun"]] |}.

Definition no_songs : DataFrame := {| columns := ["ID"; "Title"]; values := [] |}.

(** A world in which one connection, number 0, is open. *)
Definition connected : Odbc.world := [EvConnect "DSN=songs" 0].

(** A parser that stands in for [yaml.safe_load] on the documents of the disk
    below, and one for tables written as comma-separated lines under a header
    line.  The YAML documents are flat: lines [key: value] with plain text
    values make a mapping; a line without [: ] after such a line is the
    scanner's error; lines of which none has [: ] are one plain scalar; no
    line at all is the empty document, [None]; and a byte 255, which no UTF-8 text holds, is the decoder's error. *)
Definition nl : string := String "010"%char "".

Fixpoint key_colon_value (line : string) : option (string * string) :=
  match line with
  | EmptyString => None
  | String ":" (String " " rest) => Some ("", rest)
  | String c rest =>
      match key_colon_value rest with
      | Some (k, v) => Some (String c k, v)
      | None => None
      end
  end.

Fixpoint flat_mapping (lines : list string) : string + list (string * yaml) :=
  match lines with
  | [] => inr []
  | line :: lines' =>
      match key_colon_value line, flat_mapping lines' with
      | Some (k, v), inr items => inr ((k, YStr v) :: items)
      | None, _ => inl ("could not find expected ':'")
      | _, inl err => inl err
      end
  end.

Definition nonempty (s : string) : bool := negb (String.eqb s "").

Definition has_byte (b : ascii) (content : string) : bool :=
  existsb (Ascii.eqb b) (list_ascii_of_string content).

Definition flat_yaml (content : string) : loaded :=
  if has_byte "255" content
  then Failed (ValueError "'utf-8' codec can't decode byte 0xff")
  else match List.filter nonempty (split_on "010" content) with
       | [] => Parsed YNone
       | line :: lines =>
           match key_colon_value line with
           | None =>
               if forallb (fun l => negb (bool_decide (is_Some (key_colon_value l)))) lines
               then Parsed (YStr (join " " (line :: lines)))
               else YAMLError "mapping values are not allowed here"
           | Some _ =>
               match flat_mapping (line :: lines) with
               | inr items => Parsed (YMap items)
               | inl err => YAMLError err
               end
           end
       end.

Definition comma_table (content : string) : option DataFrame :=
  match List.filter nonempty (split_on "010" content) with
  | [] => None
  | header :: lines =>
      let cols := split_on "," header in
      let cells := map (fun l => map CStr (split_on "," l)) lines in
      if rectangular (length cols) cells
      then Some {| columns := cols; values := cells |}
      else None
  end.

Definition parsers : Parsers :=
  {| yaml_safe_load := flat_yaml; excel_parse := comma_table |}.

(** A disk with three configuration files, one in order, one with a line
    that lacks its colon and one that is no UTF-8 text, and a song directory
    per label: [Happy] holds a song list, [Neutral] a table without [ID] column,
    [Angry] only a sub-directory and [Sad] nothing. *)
Definition disk : Os.world :=
  {| files :=
       list_to_map
         [("config.yml", File ("model_path: model.h5" +:+ nl +:+ "Songs: songs" +:+ nl));
          ("broken.yml", File ("model_path: model.h5" +:+ nl +:+ "Songs songs" +:+ nl));
          ("latin1.yml", File ("model_path: mod" +:+ String "255"%char "le.h5" +:+ nl));
          ("songs/Happy", Dir ["happy.xlsx"]);
          ("songs/Happy/happy.xlsx",
           File ("ID,Title,Artist" +:+ nl +:+ "1,Walking on sunshine,Katrina"
                 +:+ nl +:+ "2,Lovely day,Bill Withers" +:+ nl));
          ("songs/Neutral", Dir ["calm.xlsx"]);
          ("songs/Neutral/calm.xlsx",
           File ("Title,Artist" +:+ nl +:+ "Clair de lune,Debussy" +:+ nl));
          ("songs/Angry", Dir ["old"]);
          ("songs/Angry/old", Dir []);
          ("songs/Sad", Dir [])];
     stdout := [] |}.

Definition configs : yaml :=
  YMap [("data", YMap [("model_path", YStr "model.h5"); ("Songs", YStr "songs")])].

Definition happy_table : DataFrame :=
  {| columns := ["ID"; "Title"; "Artist"];
     values := [[CStr "1"; CStr "Walking on sunshine"; CStr "Katrina"];
                [CStr "2"; CStr "Lovely day"; CStr "Bill Withers"]] |}.

(** A four-class model on 48 by 48 images: it scores by brightness. *)
Record image : Type := mk_image { dims : list nat; brightness : Z }.

Definition dims_eqb (a b : list nat) : bool :=
  (Nat.eqb (length a) (length b) && forallb (fun p => Nat.eqb (fst p) (snd p)) (combine a b))%bool.

Definition brightness_model : Main.Model :=
  {| Main.tensor := image;
     Main.tensor_shape := dims;
     Main.score := Z;
     Main.score_gt := Z.gtb;
     Main.predict_on_batch := fun t =>
       if dims_eqb (dims t) [1; 48; 48; 1]
       then Return [[(50 - brightness t)%Z; (brightness t - 150)%Z; 0%Z;
                     (100 - brightness t)%Z]]
       else Raise (ValueError "input is incompatible with the layer") |}.

Definition bright_face : image := {| dims := [1; 48; 48; 1]; brightness := 200 |}.

(** The same world after [Demo.two_songs] was written through connection 0. *)
Definition after_write : Odbc.world :=
  snd (@Utils.write_to_mssql_db songs_server 0 "Songs" ["ID"; "Title"] two_songs connected).

Definition songs_result : result_set :=
  {| description := [("ID", "int"); ("Title", "str")]; rows := values two_songs |}.

End Demo.

(** ** More concrete collaborators *)

Module Cases.
Import Logging Pandas Odbc Os.

(** A server that also runs the statement [touch], which has no result set. *)
Definition touch : string := "UPDATE Songs SET Title = Title".

Definition touching_server : Server :=
  {| srv_connect := fun _ _ => None;
     srv_execute := fun tr h sql =>
       if String.eqb sql touch then inr None
       else @srv_execute Demo.songs_server tr h sql;
     srv_executemany := @srv_executemany Demo.songs_server |}.

(** A model trained on seven classes, and one that cannot decide. *)
Definition seven_class_model : Main.Model :=
  {| Main.tensor := Demo.image;
     Main.tensor_shape := Demo.dims;
     Main.score := Z;
     Main.score_gt := Z.gtb;
     Main.predict_on_batch := fun t =>
       Return [[0%Z; 0%Z; 1%Z; 0%Z; 0%Z; Demo.brightness t; 0%Z]] |}.

Definition undecided_model : Main.Model :=
  {| Main.tensor := Demo.image;
     Main.tensor_shape := Demo.dims;
     Main.score := Z;
     Main.score_gt := Z.gtb;
     Main.predict_on_batch := fun _ => Return [[25%Z; 25%Z; 25%Z; 25%Z]] |}.

End Cases.

(** ** [Utils.get_execution_time] and the [timedelta] it goes through *)

Module Elapsed.
Import Logging Pandas.

(** The values of [start] and [end] that this model covers: a count of
    seconds held in an [int], or a [datetime].  The function takes any
    object; a [float] count, as [time.time()] gives, a [bool] or any other
    value is outside the model, and no statement about [get_execution_time]
    below speaks of them. *)
Inductive instant : Type :=
| Seconds (n : Z)
| Moment (t : datetime).

(** The value of [end - start]: an [int], or the [timedelta] between two
    [datetime]s. *)
Inductive difference : Type :=
| Count (n : Z)
| Span (finish start : datetime).

(** A [timedelta], normalised as the constructor leaves it:
    [0 <= seconds < 86400] and [0 <= microseconds < 1000000]. *)
Record timedelta : Type := mk_timedelta
  { days : Z; seconds : Z; microseconds : Z }.

(** How the call ends: with its text, with one of the exceptions of [Py], or
    with the [OverflowError] of a [timedelta] out of range. *)
Inductive ending : Type :=
| Text (s : string)
| Error (e : exn)
| Overflow.

(** [end - start] *)
Definition sub (finish start : instant) : outcome difference :=
  match finish, start with
  | Seconds a, Seconds b => Return (Count (a - b))
  | Moment a, Moment b => Return (Span a b)
  | _, _ => Raise (TypeError "unsupported operand type(s) for -")
  end.

(** [datetime.timedelta(seconds=d)] *)
Definition timedelta_of_seconds (d : difference) : ending + timedelta :=
  match d with
  | Count n =>
      if (Z.abs (n / 86400) >? 999999999)%Z then inl Overflow
      else inr {| days := n / 86400; seconds := n mod 86400; microseconds := 0 |}
  | Span _ _ =>
      inl (Error (TypeError
                    "unsupported type for timedelta seconds component: datetime.timedelta"))
  end.

Fixpoint zeros (n : nat) : string :=
  match n with
  | O => ""
  | S n' => "0" +:+ zeros n'
  end.

(** ["%0<width>d" % z] *)
Definition zero_pad (width : nat) (z : Z) : string :=
  let sign := if (z <? 0)%Z then "-" else "" in
  let digits := decimal_Z (Z.abs z) in
  sign +:+ zeros (width - String.length sign - String.length digits) +:+ digits.

(** [str(td)] *)
Definition str (td : timedelta) : string :=
  let mm := (seconds td / 60)%Z in
  let ss := (seconds td mod 60)%Z in
  let hh := (mm / 60)%Z in
  let mm := (mm mod 60)%Z in
  let s := decimal_Z hh +:+ ":" +:+ zero_pad 2 mm +:+ ":" +:+ zero_pad 2 ss in
  let s := if (days td =? 0)%Z then s
           else decimal_Z (days td) +:+ " day"
                +:+ (if (Z.abs (days td) =? 1)%Z then "" else "s") +:+ ", " +:+ s in
  if (microseconds td =? 0)%Z then s
  else s +:+ "." +:+ zero_pad 6 (microseconds td).

(** [str(datetime.timedelta(seconds=(end - start))).split(".")[0]] *)
Definition get_execution_time (start finish : instant) : ending :=
  match sub finish start with
  | Raise e => Error e
  | Return d =>
      match timedelta_of_seconds d with
      | inl stop => stop
      | inr td =>
          match first_item (split_on "." (str td)) with
          | Return s => Text s
          | Raise e => Error e
          end
      end
  end.

End Elapsed.

(** ** The rest of [main.py]: preprocessing and the page *)

Module App.
Import Pandas Os Main.

(** The [tensorflow] operations on image tensors that [preprocess] and [main]
    call; what they do to the pixels stays with the library. *)
Class TensorOps {M : Model} : Type :=
  { decode_image : string -> nat -> outcome tensor;
    img_to_array : tensor -> outcome tensor;
    resize_nearest : tensor -> list nat -> outcome tensor;
    rgb_to_grayscale : tensor -> outcome tensor;
    reshape : tensor -> list nat -> outcome tensor }.

(** Sequencing of calls that raise or return and touch no world. *)
#[export] Instance outcome_ret : MRet outcome := fun A => @Return A.
#[export] Instance outcome_bind : MBind outcome :=
  fun A B k o => match o with Return a => k a | Raise e => Raise e end.

(** What [streamlit] has put on the page. *)
Inductive element : Type :=
| Markdown (body : string) (unsafe_allow_html : bool)
| CameraInput (label label_visibility : string)
| Subheader (body : string)
| Dataframe (data : DataFrame).

(** The session: the disk, the picture the camera control holds (none until
    one is taken), and the elements rendered so far in the main area and in
    the sidebar. *)
Record session : Type := mk_session
  { disk : Os.world; camera : option string;
    page : list element; sidebar : list element }.

Definition render (e : element) : py session unit :=
  modify (fun s => {| disk := disk s; camera := camera s;
                      page := page s ++ [e]; sidebar := sidebar s |}).

(** [st.markdown(body, unsafe_allow_html=...)] *)
Definition st_markdown (body : string) (unsafe_allow_html : bool) : py session unit :=
  render (Markdown body unsafe_allow_html).

(** [st.subheader(body)] *)
Definition st_subheader (body : string) : py session unit := render (Subheader body).

(** [st.dataframe(data)] *)
Definition st_dataframe (data : DataFrame) : py session unit := render (Dataframe data).

(** [with st.sidebar: st.camera_input(label, label_visibility=...)]: the
    control goes to the sidebar and answers with the bytes of the picture it
    holds. *)
Definition sidebar_camera_input (label label_visibility : string)
  : py session (option string) :=
  fun s => (Return (camera s),
            {| disk := disk s; camera := camera s; page := page s;
               sidebar := sidebar s ++ [CameraInput label label_visibility] |}).

(** A computation on the disk, run inside the session. *)
Definition on_disk {A} (m : py Os.world A) : py session A :=
  fun s => let '(r, d) := m (disk s) in
           (r, {| disk := d; camera := camera s; page := page s; sidebar := sidebar s |}).

Section Page.
Context {M : Model} {T : TensorOps} `{OsPath} `{Parsers}.
Variable configs : yaml.

Definition preprocess (image : tensor) : outcome tensor :=
  image ← img_to_array image;
  image ← resize_nearest image [48; 48];
  image ← rgb_to_grayscale image;
  image ← reshape image [1; 48; 48; 1];
  mret image.

Definition main : py session unit :=
  st_markdown "<h1 style='text-align: center; color: white;'>Music Therapy</h1>" true;;
  img_file_buffer ← sidebar_camera_input "Scan Face" "hidden";
  match img_file_buffer with
  | None => mret tt
  | Some bytes_data =>
      img_tensor ← lift (decode_image bytes_data 3);
      img_tensor ← lift (preprocess img_tensor);
      emo_class ← lift (classifer img_tensor);
      if String.eqb emo_class "Angry" then
        st_subheader ("Your Mood is :red[" +:+ emo_class +:+ "]");;
        song_list_df ← on_disk (fetch_song_list configs emo_class);
        st_dataframe song_list_df
      else if String.eqb emo_class "Happy" then
        st_subheader ("Your Mood is :green[" +:+ emo_class +:+ "]");;
        song_list_df ← on_disk (fetch_song_list configs emo_class);
        st_dataframe song_list_df
      else if String.eqb emo_class "Neutral" then
        st_subheader ("Your Mood is " +:+ emo_class);;
        song_list_df ← on_disk (fetch_song_list configs emo_class);
        st_dataframe song_list_df
      else if String.eqb emo_class "Sad" then
        st_subheader ("Your Mood is :red[" +:+ emo_class +:+ "]");;
        song_list_df ← on_disk (fetch_song_list configs emo_class);
        st_dataframe song_list_df
      else mret tt
  end.

End Page.

(** The library's account of shapes, for an image of height [h], width [w]
    and [c] channels: [img_to_array] keeps the shape, [resize] to 48 by 48
    changes height and width only, [rgb_to_grayscale] takes three channels to
    one, and [reshape] gives the asked shape when the number of entries is
    the same. *)
Record shape_laws {M : Model} {T : TensorOps} : Prop :=
  { img_to_array_shape : forall t h w c,
      tensor_shape t = [h; w; c] ->
      exists t', img_to_array t = Return t' /\ tensor_shape t' = [h; w; c];
    resize_shape : forall t h w c,
      tensor_shape t = [h; w; c] -> 0 < h -> 0 < w ->
      exists t', resize_nearest t [48; 48] = Return t' /\ tensor_shape t' = [48; 48; c];
    grayscale_shape : forall t h w,
      tensor_shape t = [h; w; 3] ->
      exists t', rgb_to_grayscale t = Return t' /\ tensor_shape t' = [h; w; 1];
    reshape_shape : forall t shape,
      fold_right Nat.mul 1 (tensor_shape t) = fold_right Nat.mul 1 shape ->
      exists t', reshape t shape = Return t' /\ tensor_shape t' = shape }.

(** The mood line of each label, with the colour markup of the page. *)
Definition mood_line (emo_class : string) : string :=
  if String.eqb emo_class "Happy" then "Your Mood is :green[Happy]"
  else if String.eqb emo_class "Neutral" then "Your Mood is Neutral"
  else "Your Mood is :red[" +:+ emo_class +:+ "]".

End App.

(** ** A session to run the page on *)

Module Studio.
Import Logging Pandas Odbc Os.

(** Tensor operations on [Demo.image]s that keep account of the shape and
    leave the brightness alone; a picture decodes to 480 by 640 pixels, as
    bright as its bytes are many. *)
Definition decode (bytes : string) (channels : nat) : outcome Demo.image :=
  if String.eqb bytes "" then Raise (ValueError "Input is empty")
  else Return {| Demo.dims := [480; 640; channels];
                 Demo.brightness := Z.of_nat (String.length bytes) |}.

Definition to_array (t : Demo.image) : outcome Demo.image :=
  match Demo.dims t with
  | [h; w; c] => Return t
  | [h; w] => Return {| Demo.dims := [h; w; 1]; Demo.brightness := Demo.brightness t |}
  | _ => Raise (ValueError "Unsupported image shape")
  end.

Definition resize (t : Demo.image) (size : list nat) : outcome Demo.image :=
  match Demo.dims t with
  | [h; w; c] =>
      if (Nat.ltb 0 h && Nat.ltb 0 w)%bool
      then Return {| Demo.dims := size ++ [c]; Demo.brightness := Demo.brightness t |}
      else Raise (ValueError "input image must be of non-zero size")
  | _ => Raise (ValueError "'images' must have either 3 or 4 dimensions")
  end.

Definition grayscale (t : Demo.image) : outcome Demo.image :=
  match Demo.dims t with
  | [h; w; 3] => Return {| Demo.dims := [h; w; 1]; Demo.brightness := Demo.brightness t |}
  | _ => Raise (ValueError "Last dimension of input must be 3")
  end.

Definition reshaped (t : Demo.image) (shape : list nat) : outcome Demo.image :=
  if Nat.eqb (fold_right Nat.mul 1 (Demo.dims t)) (fold_right Nat.mul 1 shape)
  then Return {| Demo.dims := shape; Demo.brightness := Demo.brightness t |}
  else Raise (ValueError "Input to reshape has a different number of values").

Definition shape_ops : @App.TensorOps Demo.brightness_model :=
  @App.Build_TensorOps Demo.brightness_model decode to_array resize grayscale reshaped.

(** 200 bytes of picture. *)
Definition picture : string :=
  Eval vm_compute in
    (fold_right String.append "" (repeat "0123456789" 20)).

Definition before_capture : App.session :=
  {| App.disk := Demo.disk; App.camera := None; App.page := []; App.sidebar := [] |}.

Definition after_capture : App.session :=
  {| App.disk := Demo.disk; App.camera := Some picture; App.page := []; App.sidebar := [] |}.

End Studio.

(** * Properties *)

(** Running a computation: unfold the sequencing down to pairs. *)
Ltac run_py :=
  unfold mbind, py_bind, mret, py_ret, bind, ret, raise, gets, modify, lift; simpl.

Ltac run_get_logger :=
  unfold Utils.get_logger, datetime_now, getLogger, set_propagate, setLevel,
    addHandler, new_FileHandler, new_StreamHandler, update_logger; run_py.

Ltac run_db :=
  unfold Utils.read_from_mssql_db, Utils.write_to_mssql_db, conn_cursor, cursor_execute,
    cursor_fetchall, cursor_executemany, cursor_commit, conn_close, closed_error,
    cursor_description; run_py.

(** ** [get_logger] *)

(** *** The manager's bookkeeping leaves the loggers' own attributes alone *)

Lemma own_at_set_parent d name p other :
  own_at (set_parent name p d) other = own_at d other.
Proof.
  unfold set_parent. destruct (d !! name) as [[l|m]|] eqn:Hname; try done.
  unfold own_at. destruct (decide (name = other)) as [<-|Hne].
  - by rewrite lookup_insert_eq, Hname.
  - by rewrite lookup_insert_ne.
Qed.

Lemma own_at_fixupChildren alogger loggerMap d other :
  own_at (fixupChildren alogger loggerMap d) other = own_at d other.
Proof.
  unfold fixupChildren. revert d.
  induction loggerMap as [|c cs IH]; intros d; simpl; [done|].
  rewrite IH. destruct (d !! c) as [[lc|m]|]; try done.
  destruct (parent lc) as [p|]; [|done].
  destruct (String.eqb _ alogger); [done|]. by rewrite !own_at_set_parent.
Qed.

Lemma own_at_fixup_loop alogger cuts d other :
  own_at (snd (fixup_loop alogger cuts d)) other = own_at d other.
Proof.
  revert d. induction cuts as [|i cuts IH]; intros d; simpl; [done|].
  destruct (d !! String.substring 0 i alogger) as [[l|m]|] eqn:Hsub; [done| |];
    rewrite IH; unfold own_at;
    (destruct (decide (String.substring 0 i alogger = other)) as [<-|Hne];
     [by rewrite lookup_insert_eq, Hsub|by rewrite lookup_insert_ne]).
Qed.

Lemma own_at_fixupParents alogger d other :
  own_at (fixupParents alogger d) other = own_at d other.
Proof.
  unfold fixupParents.
  pose proof (own_at_fixup_loop alogger
                (prefix_cuts (String.length alogger) alogger
                   (rfind_dot alogger (String.length alogger))) d other) as Hloop.
  destruct (fixup_loop _ _ d) as [rv d']. by rewrite own_at_set_parent.
Qed.

Lemma own_at_insert d name l other :
  own_at (<[name := ALogger l]> d) other
  = if decide (name = other) then Some (own l) else own_at d other.
Proof.
  unfold own_at. destruct (decide (name = other)) as [<-|Hne].
  - by rewrite lookup_insert_eq.
  - by rewrite lookup_insert_ne.
Qed.

Lemma own_the_logger w name :
  is_root name = false ->
  own (the_logger w name) = default (own new_Logger) (own_at (loggerDict w) name).
Proof.
  intros Hroot. unfold the_logger, own_at. rewrite Hroot.
  by destruct (loggerDict w !! name) as [[l|m]|].
Qed.

(** [Manager.getLogger]: the name holds a logger afterwards, with what the
    logger of that name had of its own; every other logger keeps its own. *)
Lemma own_at_registered w name other :
  own_at (loggerDict (registered name w)) other
  = if decide (name = other)
    then Some (default (own new_Logger) (own_at (loggerDict w) name))
    else own_at (loggerDict w) other.
Proof.
  unfold registered. cbn [loggerDict].
  destruct (loggerDict w !! name) as [[l|m]|] eqn:Hname.
  - destruct (decide (name = other)) as [<-|Hne]; [|done].
    unfold own_at. by rewrite Hname.
  - rewrite own_at_fixupParents, own_at_fixupChildren, own_at_insert.
    destruct (decide (name = other)); [|done]. unfold own_at. by rewrite Hname.
  - rewrite own_at_fixupParents, own_at_insert.
    destruct (decide (name = other)); [|done]. unfold own_at. by rewrite Hname.
Qed.

Lemma registered_holds_logger w name :
  exists l, loggerDict (registered name w) !! name = Some (ALogger l).
Proof.
  pose proof (own_at_registered w name name) as Hown.
  rewrite decide_True in Hown by done. unfold own_at in Hown.
  destruct (loggerDict (registered name w) !! name) as [[l|m]|]; [eauto|done..].
Qed.

(** *** Assignments to a logger *)

Lemma the_logger_updated w name f :
  the_logger (updated name f w) name = f (the_logger w name).
Proof.
  unfold the_logger, updated. destruct (is_root name) eqn:Hroot; cbn [root_logger loggerDict].
  - reflexivity.
  - rewrite lookup_insert_eq. unfold the_logger. by rewrite Hroot.
Qed.

Lemma the_logger_note_opened w filename name :
  the_logger (note_opened filename w) name = the_logger w name.
Proof. reflexivity. Qed.

Lemma open_raises_updated w name f : open_raises (updated name f w) = open_raises w.
Proof. unfold updated. by destruct (is_root name). Qed.

Lemma clock_updated w name f : clock (updated name f w) = clock w.
Proof. unfold updated. by destruct (is_root name). Qed.

Lemma open_raises_registered w name : open_raises (registered name w) = open_raises w.
Proof. reflexivity. Qed.

Lemma clock_registered w name : clock (registered name w) = clock w.
Proof. reflexivity. Qed.

Lemma root_logger_registered w name : root_logger (registered name w) = root_logger w.
Proof. reflexivity. Qed.

Lemma own_at_updated w name f other :
  name <> other ->
  own_at (loggerDict (updated name f w)) other = own_at (loggerDict w) other.
Proof.
  intros Hne. unfold updated. destruct (is_root name); cbn [loggerDict]; [done|].
  unfold own_at. by rewrite lookup_insert_ne.
Qed.

Lemma root_logger_updated w name f :
  is_root name = false -> root_logger (updated name f w) = root_logger w.
Proof. intros Hroot. unfold updated. by rewrite Hroot. Qed.

Lemma updated_holds_logger w name f :
  is_root name = false ->
  exists l, loggerDict (updated name f w) !! name = Some (ALogger l).
Proof.
  intros Hroot. unfold updated. rewrite Hroot. cbn [loggerDict].
  rewrite lookup_insert_eq. eauto.
Qed.

Lemma own_entered w name :
  own (the_logger (entered name w) name) = own (the_logger w name).
Proof.
  unfold entered. destruct (is_root name) eqn:Hroot; [done|].
  rewrite !own_the_logger, own_at_registered, decide_True by done. reflexivity.
Qed.

Lemma handlers_entered w name :
  handlers (the_logger (entered name w) name) = handlers (the_logger w name).
Proof. exact (f_equal snd (own_entered w name)). Qed.

(** *** The run of [get_logger] *)

Lemma own_registered w name :
  is_root name = false ->
  own (the_logger (registered name w) name) = own (the_logger w name).
Proof.
  intros Hroot. rewrite !own_the_logger, own_at_registered, decide_True by done.
  reflexivity.
Qed.

Lemma files_opened_updated w name f : files_opened (updated name f w) = files_opened w.
Proof. unfold updated. by destruct (is_root name). Qed.

Lemma files_opened_note_opened w filename :
  files_opened (note_opened filename w) = files_opened w ++ [filename].
Proof. reflexivity. Qed.

Lemma leaves_alone_refl path w : leaves_alone path w w.
Proof. by repeat split. Qed.

Lemma leaves_alone_updated path f w w1 :
  leaves_alone path w w1 -> leaves_alone path w (updated path f w1).
Proof.
  intros (Hclock & Hopen & Hown & Hroot). repeat split.
  - by rewrite clock_updated.
  - by rewrite open_raises_updated.
  - intros other Hother. rewrite own_at_updated by done. by apply Hown.
  - intros Hr. rewrite root_logger_updated by done. by apply Hroot.
Qed.

Lemma leaves_alone_registered path w w1 :
  leaves_alone path w w1 -> leaves_alone path w (registered path w1).
Proof.
  intros (Hclock & Hopen & Hown & Hroot). repeat split; try done.
  intros other Hother. rewrite own_at_registered, decide_False by done.
  by apply Hown.
Qed.

Lemma leaves_alone_note_opened path filename w w1 :
  leaves_alone path w w1 -> leaves_alone path w (note_opened filename w1).
Proof. intros (Hclock & Hopen & Hown & Hroot). by repeat split. Qed.

Section GetLoggerFacts.
Context `{OsPath}.

#[local] Opaque updated registered the_logger note_opened.

Ltac own_simpl :=
  repeat (first [rewrite the_logger_updated | rewrite the_logger_note_opened];
          cbn [handlers propagate lvl parent]).

Ltac alone :=
  repeat first [apply leaves_alone_updated | apply leaves_alone_note_opened
               | apply leaves_alone_registered | apply leaves_alone_refl].

Lemma own_prepared path w :
  own (the_logger (prepared path w) path) = (false, INFO, handlers (the_logger w path)).
Proof.
  unfold prepared, set_propagate, setLevel, update_logger. run_py.
  unfold own. own_simpl. by rewrite handlers_entered.
Qed.

Lemma leaves_alone_prepared path w : leaves_alone path w (prepared path w).
Proof.
  unfold prepared, entered, set_propagate, setLevel, update_logger. run_py.
  destruct (is_root path); alone.
Qed.

Lemma prepared_holds_logger path w :
  is_root path = false ->
  exists l, loggerDict (prepared path w) !! path = Some (ALogger l).
Proof.
  intros Hroot. unfold prepared, set_propagate, setLevel, update_logger. run_py.
  by apply updated_holds_logger.
Qed.

Lemma files_opened_prepared path w : files_opened (prepared path w) = files_opened w.
Proof.
  unfold prepared, entered, set_propagate, setLevel, update_logger. run_py.
  rewrite !files_opened_updated. by destruct (is_root path).
Qed.

Lemma get_logger_guard lp ln dbg w :
  Utils.get_logger lp ln false true dbg w
  = (Raise (ValueError guard_message), prepared (log_path w lp ln) w).
Proof.
  unfold prepared, entered, log_path. run_get_logger.
  unfold set_propagate, setLevel, update_logger. run_py.
  by destruct (is_root _).
Qed.

Lemma get_logger_open_fails lp ln wtc dbg w e :
  open_raises w (log_path w lp ln) = Some e ->
  Utils.get_logger lp ln true wtc dbg w = (Raise e, prepared (log_path w lp ln) w).
Proof.
  unfold prepared, entered, log_path. intros Hopen. run_get_logger.
  unfold set_propagate, setLevel, update_logger. run_py.
  destruct (is_root _); simpl;
    rewrite !open_raises_updated, ?open_raises_registered, Hopen; reflexivity.
Qed.

(** A call that passes the guard and, with [write_to_file], can open the
    file, returns. *)
Lemma get_logger_returns lp ln wtf wtc dbg w :
  negb wtf && wtc = false ->
  (if wtf then open_raises w (log_path w lp ln) else None) = None ->
  exists w',
    Utils.get_logger lp ln wtf wtc dbg w = (Return (log_path w lp ln), w')
    /\ leaves_alone (log_path w lp ln) w w'
    /\ own (the_logger w' (log_path w lp ln))
       = (false, if dbg then DEBUG else INFO,
          handlers (the_logger w (log_path w lp ln))
          ++ attached (log_path w lp ln) wtf wtc)
    /\ (is_root (log_path w lp ln) = false ->
        exists l, loggerDict w' !! log_path w lp ln = Some (ALogger l))
    /\ files_opened w'
       = files_opened w ++ (if wtf then [log_path w lp ln] else []).
Proof.
  intros Hguard Hopen.
  pose proof (own_prepared (log_path w lp ln) w) as Hown.
  pose proof (leaves_alone_prepared (log_path w lp ln) w) as Halone.
  pose proof (prepared_holds_logger (log_path w lp ln) w) as Hholds.
  pose proof (files_opened_prepared (log_path w lp ln) w) as Hfiles.
  assert (Hopen' : (if wtf then open_raises (prepared (log_path w lp ln) w)
                                  (log_path w lp ln) else None) = None).
  { destruct Halone as (_ & -> & _). exact Hopen. }
  assert (Hget : forall name w, getLogger name w = (Return name, entered name w)).
  { intros name w2. unfold getLogger, entered. run_py. by destruct (is_root name). }
  unfold Utils.get_logger, datetime_now. run_py. rewrite Hget. clear Hget.
  revert Hown Halone Hholds Hfiles Hopen'.
  unfold prepared, log_path, own, set_propagate, setLevel, update_logger. run_py.
  set (path := os_path_join lp _).
  set (w1 := updated path _ (updated path _ (entered path w))).
  clearbody w1.
  intros Hown Halone Hholds Hfiles Hopen'.
  injection Hown as Hp Hl Hh.
  destruct wtf, wtc; try discriminate Hguard;
    unfold new_FileHandler, new_StreamHandler, addHandler, update_logger; run_py;
    rewrite ?Hopen'; simpl;
    destruct dbg; simpl; eexists; (split; [reflexivity|]);
    (split; [alone; exact Halone|]);
    (split; [own_simpl; rewrite ?Hp, ?Hl, ?Hh, ?app_nil_r, <- ?app_assoc; reflexivity|]);
    (split; [try (intros Hroot; by apply updated_holds_logger); exact Hholds|]);
    rewrite ?files_opened_updated, ?files_opened_note_opened, Hfiles, ?app_nil_r;
    reflexivity.
Qed.

(** The two ways a call ends. *)
Lemma get_logger_cases lp ln wtf wtc dbg w :
  (exists e,
     Utils.get_logger lp ln wtf wtc dbg w = (Raise e, prepared (log_path w lp ln) w))
  \/ (exists w',
        Utils.get_logger lp ln wtf wtc dbg w = (Return (log_path w lp ln), w')
        /\ leaves_alone (log_path w lp ln) w w'
        /\ own (the_logger w' (log_path w lp ln))
           = (false, if dbg then DEBUG else INFO,
              handlers (the_logger w (log_path w lp ln))
              ++ attached (log_path w lp ln) wtf wtc)
        /\ (is_root (log_path w lp ln) = false ->
            exists l, loggerDict w' !! log_path w lp ln = Some (ALogger l))).
Proof.
  destruct (negb wtf && wtc) eqn:Hguard.
  - apply andb_true_iff in Hguard as [Hf Hc].
    apply negb_true_iff in Hf. subst wtf wtc.
    left. eexists. apply get_logger_guard.
  - destruct (if wtf then open_raises w (log_path w lp ln) else None) as [e|] eqn:Hopen.
    + destruct wtf; [|discriminate Hopen].
      left. exists e. by apply get_logger_open_fails.
    + destruct (get_logger_returns lp ln wtf wtc dbg w Hguard Hopen)
        as (w' & Hrun & Halone & Hown & Hholds & _).
      right. by exists w'.
Qed.

End GetLoggerFacts.

(** C1, amended.  [get_logger] raises the guard's [ValueError] exactly when
    [write_to_file] is [False] and [write_to_console] is [True].  For every
    other combination with [write_to_file] set, when the log file cannot be
    opened for writing, the exception of [logging.FileHandler]
    ([FileNotFoundError] or another [OSError], [ValueError] for a NUL in the
    name) leaves the call, and the logger has the handlers it had.  In every
    case that is left the call returns the logger registered under the
    timestamped log path, which carries the handlers it had before the call
    followed by the ones this call attaches: a file handler iff
    [write_to_file], a console handler iff [write_to_console]. *)
Theorem get_logger_attaches_by_flags `{OsPath} (lp ln : string) (wtf wtc dbg : bool)
    (w : Logging.world) :
  exists w',
    if negb wtf && wtc
    then Utils.get_logger lp ln wtf wtc dbg w = (Raise (ValueError guard_message), w')
    else match (if wtf then open_raises w (log_path w lp ln) else None) with
         | Some e =>
             Utils.get_logger lp ln wtf wtc dbg w = (Raise e, w')
             /\ handlers (the_logger w' (log_path w lp ln))
                = handlers (the_logger w (log_path w lp ln))
         | None =>
             Utils.get_logger lp ln wtf wtc dbg w = (Return (log_path w lp ln), w')
             /\ handlers (the_logger w' (log_path w lp ln))
                = handlers (the_logger w (log_path w lp ln))
                  ++ attached (log_path w lp ln) wtf wtc
             /\ existsb is_file_handler (attached (log_path w lp ln) wtf wtc) = wtf
             /\ existsb is_console_handler (attached (log_path w lp ln) wtf wtc) = wtc
         end.
Proof.
  destruct (negb wtf && wtc) eqn:Hguard.
  - apply andb_true_iff in Hguard as [Hf Hc].
    apply negb_true_iff in Hf. subst wtf wtc.
    eexists. apply get_logger_guard.
  - destruct (if wtf then open_raises w (log_path w lp ln) else None) as [e|] eqn:Hopen.
    + destruct wtf; [|discriminate Hopen].
      eexists. split; [by apply get_logger_open_fails|].
      exact (f_equal snd (own_prepared (log_path w lp ln) w)).
    + destruct (get_logger_returns lp ln wtf wtc dbg w Hguard Hopen)
        as (w' & Hrun & _ & Hown & _).
      exists w'. split; [exact Hrun|]. split; [exact (f_equal snd Hown)|].
      destruct wtf, wtc; split; reflexivity.
Qed.

Example get_logger_first_call :
  exists w',
    @Utils.get_logger Demo.posix "logs" "app" true false false Demo.quiet
    = (Return "logs/app_2026-03-07_09_05_00.log", w')
    /\ map is_file_handler (handlers (the_logger w' "logs/app_2026-03-07_09_05_00.log"))
       = [true]
    /\ files_opened w' = ["logs/app_2026-03-07_09_05_00.log"].
Proof. vm_compute. eexists. repeat split; reflexivity. Qed.

Example get_logger_missing_directory :
  exists w',
    @Utils.get_logger Demo.posix "nowhere" "app" true true false Demo.quiet
    = (Raise (OSError "nowhere/app_2026-03-07_09_05_00.log"), w')
    /\ handlers (the_logger w' "nowhere/app_2026-03-07_09_05_00.log") = [].
Proof. vm_compute. eexists. split; reflexivity. Qed.

(** C1 as the specification words it fails when the name is in use: a second
    call in the same second, for the same path and prefix and with both
    outputs off, returns the first call's logger, which still carries that
    call's file handler and console handler. *)
Lemma get_logger_reused_name_keeps_handlers :
  ~ @handlers_match_flags Demo.posix "logs" "app" false false false Demo.after_first_call.
Proof.
  intros (lg & w' & Hrun & Hfile & _).
  vm_compute in Hrun. injection Hrun as <- <-.
  vm_compute in Hfile. discriminate Hfile.
Qed.

(** ** The database helpers *)

Section DatabaseFacts.
Context `{Server}.

(** C2.  Whatever the table name, the column list and the connection, writing
    a row-set of zero rows raises [ValueError] and leaves the world as it was:
    no cursor was created, nothing was executed, nothing was committed. *)
Theorem write_to_mssql_db_empty_raises (db_con : connection) (table_name : string)
    (column_list : list string) (value_df : DataFrame) (w : Odbc.world) :
  fst (shape value_df) = 0 ->
  Utils.write_to_mssql_db db_con table_name column_list value_df w
  = (Raise (ValueError "Data frmae is empty"), w).
Proof. intros Hempty. run_db. simpl in Hempty. rewrite Hempty. reflexivity. Qed.

Lemma read_keeps_connections h db_con sql w r w' :
  Utils.read_from_mssql_db db_con sql w = (r, w') -> is_open h w' = is_open h w.
Proof.
  run_db. destruct (is_open db_con w) eqn:Hopen; simpl; [|by intros [= <- <-]].
  rewrite Hopen.
  destruct (srv_execute (EvCursor db_con :: w) db_con sql) as [err|[rs|]]; simpl;
    try (by intros [= <- <-]).
  destruct (Nat.ltb 0 (length (rows rs))); simpl; [|by intros [= <- <-]].
  destruct (np_array (rows rs)) as [arr|e]; simpl; [|by intros [= <- <-]].
  destruct (DataFrame_of_array arr _); by intros [= <- <-].
Qed.

Lemma write_keeps_connections h db_con table_name column_list value_df w r w' :
  Utils.write_to_mssql_db db_con table_name column_list value_df w = (r, w') ->
  is_open h w' = is_open h w.
Proof.
  run_db. destruct (Nat.eqb (length (values value_df)) 0); simpl; [by intros [= <- <-]|].
  destruct (is_open db_con w) eqn:Hopen; simpl; [|by intros [= <- <-]].
  rewrite Hopen.
  destruct (srv_executemany _ _ _ _); simpl; [by intros [= <- <-]|].
  rewrite Hopen. by intros [= <- <-].
Qed.

Lemma connect_opens conn_str w :
  match connect conn_str w with
  | (Return conn, w1) => is_open conn w1 = true
  | (Raise _, w1) => True
  end.
Proof.
  unfold connect. destruct (srv_connect w conn_str); [exact I|].
  simpl. by rewrite Nat.eqb_refl.
Qed.

(** The shape shared by the four credential-taking overloads. *)
Lemma open_run_close {A} (open : py Odbc.world connection)
    (inner : connection -> py Odbc.world A) :
  (forall w, match open w with
             | (Return conn, w1) => is_open conn w1 = true
             | (Raise _, _) => True
             end) ->
  (forall h conn w r w', inner conn w = (r, w') -> is_open h w' = is_open h w) ->
  wraps_connection (conn ← open; a ← inner conn; conn_close conn;; mret a) open inner.
Proof.
  intros Hopen Hkeep w. specialize (Hopen w). run_py.
  destruct (open w) as [[conn|e] w1]; [|reflexivity].
  split; [exact Hopen|].
  destruct (inner conn w1) as [[a|e] w2] eqn:Hinner;
    pose proof (Hkeep conn _ _ _ _ Hinner) as Hsame; rewrite Hopen in Hsame.
  - unfold conn_close. rewrite Hsame. simpl. by rewrite Nat.eqb_refl.
  - by split.
Qed.

(** C6.  Each credential-taking overload of [read_from_mssql_db] and of
    [write_to_mssql_db] opens its own connection, gives what the
    connection-taking overload gives on that fresh connection (the same data
    frame, the same write, the same exception), and has closed the connection
    when it returns. *)
Theorem credential_overloads_wrap_connection
    (server db_name username password sql table_name : string)
    (column_list : list string) (value_df : DataFrame) :
  wraps_connection
    (Utils.read_from_mssql_db_credentials server db_name username password sql)
    (Utils.get_mssql_db_connection server db_name username password)
    (fun conn => Utils.read_from_mssql_db conn sql)
  /\ wraps_connection
       (Utils.read_from_mssql_db_trusted server db_name sql)
       (Utils.get_mssql_db_connection_trusted server db_name)
       (fun conn => Utils.read_from_mssql_db conn sql)
  /\ wraps_connection
       (Utils.write_to_mssql_db_credentials server db_name username password
          table_name column_list value_df)
       (Utils.get_mssql_db_connection server db_name username password)
       (fun conn => Utils.write_to_mssql_db conn table_name column_list value_df)
  /\ wraps_connection
       (Utils.write_to_mssql_db_trusted server db_name table_name column_list value_df)
       (Utils.get_mssql_db_connection_trusted server db_name)
       (fun conn => Utils.write_to_mssql_db conn table_name column_list value_df).
Proof.
  repeat split.
  - apply open_run_close; [intros w; apply connect_opens|].
    intros h conn w r w'. apply read_keeps_connections.
  - apply open_run_close; [intros w; apply connect_opens|].
    intros h conn w r w'. apply read_keeps_connections.
  - intros w.
    pose proof (open_run_close
                  (Utils.get_mssql_db_connection server db_name username password)
                  (fun conn => Utils.write_to_mssql_db conn table_name column_list value_df)
                  (fun w => connect_opens _ w)
                  (fun h conn w r w' => write_keeps_connections h conn _ _ _ w r w') w)
      as Hw.
    revert Hw. unfold Utils.write_to_mssql_db_credentials. run_py.
    destruct (Utils.get_mssql_db_connection _ _ _ _ w) as [[conn|e] w1]; [|done].
    destruct (Utils.write_to_mssql_db conn _ _ _ w1) as [[[]|e] w2]; [|done].
    destruct (conn_close conn w2) as [[[]|e] w3]; done.
  - intros w.
    pose proof (open_run_close
                  (Utils.get_mssql_db_connection_trusted server db_name)
                  (fun conn => Utils.write_to_mssql_db conn table_name column_list value_df)
                  (fun w => connect_opens _ w)
                  (fun h conn w r w' => write_keeps_connections h conn _ _ _ w r w') w)
      as Hw.
    revert Hw. unfold Utils.write_to_mssql_db_trusted. run_py.
    destruct (Utils.get_mssql_db_connection_trusted _ _ w) as [[conn|e] w1]; [|done].
    destruct (Utils.write_to_mssql_db conn _ _ _ w1) as [[[]|e] w2]; [|done].
    destruct (conn_close conn w2) as [[[]|e] w3]; done.
Qed.

End DatabaseFacts.

Example read_with_credentials_closes :
  let '(r, w) := @Utils.read_from_mssql_db_credentials Demo.songs_server
                   "10.0.0.5" "Music" "dj" "s3cret" Demo.songs_query Demo.after_write in
  r = Return {| columns := ["ID"; "Title"];
                values := [[CStr "1"; CStr "Clair de lune"];
                           [CStr "2"; CStr "Here comes the sun"]] |}
  /\ is_open 1 w = false /\ is_open 0 w = true.
Proof. vm_compute. repeat split. Qed.

Example write_with_credentials_leaves_open_on_error :
  let '(r, w) := @Utils.write_to_mssql_db_credentials Demo.songs_server
                   "10.0.0.5" "Music" "dj" "s3cret" "Songs" ["ID"; "Title"]
                   Demo.no_songs Demo.connected in
  r = Raise (ValueError "Data frmae is empty") /\ is_open 1 w = true.
Proof. vm_compute. repeat split. Qed.

(** The index loop over [cursor.description] collects the first entry of
    every column, in order. *)
Lemma description_loop (before after : list column_desc) (cols : list string) :
  fold_left (fun cols i => match (before ++ after) !! i with
                           | Some d => cols ++ [fst d]
                           | None => cols
                           end)
            (seq (length before) (length after)) cols
  = cols ++ map fst after.
Proof.
  revert before cols. induction after as [|d after IH]; intros before cols; simpl.
  - by rewrite app_nil_r.
  - rewrite list_lookup_middle by reflexivity.
    replace (before ++ d :: after) with ((before ++ [d]) ++ after)
      by (by rewrite <- app_assoc).
    replace (S (length before)) with (length (before ++ [d]))
      by (rewrite length_app; simpl; lia).
    rewrite IH. by rewrite <- app_assoc.
Qed.

Lemma description_names_map (description : list column_desc) :
  Utils.description_names description = map fst description.
Proof. exact (description_loop [] description []). Qed.

Lemma rectangular_cast width d data :
  rectangular width (map (map (cast d)) data) = rectangular width data.
Proof.
  unfold rectangular. induction data as [|r data IH]; simpl; [done|].
  by rewrite length_map, IH.
Qed.

Lemma np_array_rectangular width data :
  data <> [] -> rectangular width data = true ->
  np_array data = Return (map (map (cast (common_dtype data))) data).
Proof.
  destruct data as [|r data]; [done|]. intros _ Hrect. unfold np_array.
  assert (Hr : length r = width).
  { simpl in Hrect. apply andb_true_iff in Hrect as [Hr _]. by apply Nat.eqb_eq in Hr. }
  by rewrite Hr, Hrect.
Qed.

Lemma DataFrame_of_array_rectangular arr cols :
  rectangular (length cols) arr = true ->
  DataFrame_of_array arr cols = Return {| columns := cols; values := arr |}.
Proof. intros Hrect. unfold DataFrame_of_array. by rewrite Hrect. Qed.

Section ReadFacts.
Context `{Server}.

(** C9.  For a query with a result set, the connection-taking
    [read_from_mssql_db] returns a data frame whose columns are the names of
    [cursor.description], in order, and which has one row per fetched row:
    the empty frame over those columns when the result set has no row. *)
Theorem read_from_mssql_db_frame (db_con : connection) (sql : string) (w : Odbc.world)
    (rs : result_set) :
  yields_result_set db_con sql w rs ->
  exists df w',
    Utils.read_from_mssql_db db_con sql w = (Return df, w')
    /\ columns df = map fst (description rs)
    /\ length (values df) = length (rows rs)
    /\ (rows rs = [] -> df = DataFrame_empty (map fst (description rs))).
Proof.
  intros (Hopen & Hexec & Hrect).
  unfold Utils.read_from_mssql_db, conn_cursor, cursor_execute, cursor_fetchall,
    cursor_description.
  unfold mbind, py_bind, mret, py_ret, bind, ret, lift.
  rewrite Hopen. cbn [cur_conn is_open]. rewrite Hopen, Hexec. cbn [cur_result fmap option_fmap option_map].
  rewrite description_names_map.
  destruct (rows rs) as [|r data] eqn:Hrows.
  - cbn [length Nat.ltb Nat.leb]. eexists _, _. repeat split.
  - cbn [length Nat.ltb Nat.leb].
    rewrite (np_array_rectangular _ (r :: data) ltac:(done) Hrect).
    rewrite DataFrame_of_array_rectangular
      by (by rewrite length_map, rectangular_cast).
    eexists _, _. split; [reflexivity|]. repeat split.
    + cbn [values]. by rewrite length_map.
    + discriminate.
Qed.

End ReadFacts.

Lemma read_from_mssql_db_frame_witness :
  @yields_result_set Demo.songs_server 0 Demo.songs_query Demo.after_write Demo.songs_result
  /\ exists df w',
       @Utils.read_from_mssql_db Demo.songs_server 0 Demo.songs_query Demo.after_write
       = (Return df, w')
       /\ columns df = ["ID"; "Title"]
       /\ length (values df) = 2
       /\ (rows Demo.songs_result = [] -> df = DataFrame_empty ["ID"; "Title"]).
Proof.
  assert (Hyields : @yields_result_set Demo.songs_server 0 Demo.songs_query
                      Demo.after_write Demo.songs_result) by (repeat split).
  split; [exact Hyields|].
  exact (@read_from_mssql_db_frame Demo.songs_server 0 Demo.songs_query Demo.after_write
           Demo.songs_result Hyields).
Defined.

Example read_empty_table :
  fst (@Utils.read_from_mssql_db Demo.songs_server 0 Demo.songs_query Demo.connected)
  = Return (DataFrame_empty ["ID"; "Title"]).
Proof. reflexivity. Qed.

(** *** The statement [write_to_mssql_db] sends *)

Lemma placeholders_repeat n : Utils.placeholders n = repeat "?" n.
Proof.
  unfold Utils.placeholders. generalize 0 as k.
  induction n as [|n IH]; intros k; simpl; [done|]. by rewrite IH.
Qed.

Lemma join_cons sep x y rest :
  join sep (x :: y :: rest) = x +:+ sep +:+ join sep (y :: rest).
Proof. reflexivity. Qed.

Lemma count_char_app c a b :
  count_char c (a +:+ b) = count_char c a + count_char c b.
Proof. induction a as [|c' a IH]; simpl; [done|]. rewrite IH. lia. Qed.

Lemma count_joined_placeholders n :
  count_char "?" (join "," (repeat "?" n)) = n.
Proof.
  induction n as [|n IH]; [done|].
  destruct n as [|n]; [done|].
  change (repeat "?" (S (S n))) with ("?" :: "?" :: repeat "?" n).
  rewrite join_cons, !count_char_app.
  change ("?" :: repeat "?" n) with (repeat "?" (S n)). rewrite IH. reflexivity.
Qed.

Section WriteFacts.
Context `{Server}.

(** C10.  For a row-set that is not empty, the connection-taking
    [write_to_mssql_db] sends an INSERT statement whose VALUES group holds one
    [?] per column of the data frame, whatever the column list is; the number
    of named columns equals the number of placeholders only when the column
    list is as long as the data frame is wide. *)
Theorem write_to_mssql_db_statement (db_con : connection) (table_name : string)
    (column_list : list string) (value_df : DataFrame) (w : Odbc.world) :
  fst (shape value_df) <> 0 ->
  is_open db_con w = true ->
  exists r w',
    Utils.write_to_mssql_db db_con table_name column_list value_df w = (r, w')
    /\ In (EvExecuteMany db_con
             ("INSERT INTO " +:+ table_name +:+ " (" +:+ join "," column_list
              +:+ ") VALUES (" +:+ join "," (repeat "?" (snd (shape value_df))) +:+ ")")
             (values value_df)) w'
    /\ count_char "?" (join "," (repeat "?" (snd (shape value_df))))
       = length (columns value_df)
    /\ (length column_list = length (repeat "?" (snd (shape value_df)))
        <-> length column_list = length (columns value_df)).
Proof.
  intros Hrows Hopen.
  assert (Hstmt : Utils.insert_statement table_name column_list value_df
                  = "INSERT INTO " +:+ table_name +:+ " (" +:+ join "," column_list
                    +:+ ") VALUES (" +:+ join "," (repeat "?" (snd (shape value_df)))
                    +:+ ")").
  { unfold Utils.insert_statement. rewrite placeholders_repeat. reflexivity. }
  rewrite <- Hstmt. clear Hstmt.
  unfold Utils.write_to_mssql_db, conn_cursor, cursor_executemany, cursor_commit.
  unfold mbind, py_bind, mret, py_ret, bind, ret, raise.
  apply Nat.eqb_neq in Hrows. rewrite Hrows, Hopen. cbn [cur_conn is_open].
  rewrite Hopen. unfold values_tolist.
  destruct (srv_executemany _ _ _ _) as [err|].
  - eexists _, _. split; [reflexivity|]. split; [by left|].
    split; [apply count_joined_placeholders|]. by rewrite repeat_length.
  - cbn [is_open]. rewrite Hopen.
    eexists _, _. split; [reflexivity|]. split; [by right; left|].
    split; [apply count_joined_placeholders|]. by rewrite repeat_length.
Qed.

End WriteFacts.

Lemma write_to_mssql_db_statement_witness :
  fst (shape Demo.two_songs) <> 0
  /\ is_open 0 Demo.connected = true
  /\ exists r w',
       @Utils.write_to_mssql_db Demo.songs_server 0 "Songs" ["ID"] Demo.two_songs
         Demo.connected = (r, w')
       /\ In (EvExecuteMany 0 "INSERT INTO Songs (ID) VALUES (?,?)" (values Demo.two_songs)) w'
       /\ count_char "?" "?,?" = 2
       /\ (1 = 2 <-> 1 = 2).
Proof.
  assert (Hrows : fst (shape Demo.two_songs) <> 0) by discriminate.
  assert (Hopen : is_open 0 Demo.connected = true) by reflexivity.
  repeat split; try assumption.
  exact (@write_to_mssql_db_statement Demo.songs_server 0 "Songs" ["ID"] Demo.two_songs
           Demo.connected Hrows Hopen).
Defined.

Lemma write_to_mssql_db_empty_raises_witness :
  fst (shape Demo.no_songs) = 0
  /\ @Utils.write_to_mssql_db Demo.songs_server 0 "Songs" ["ID"; "Title"] Demo.no_songs
       Demo.connected
     = (Raise (ValueError "Data frmae is empty"), Demo.connected).
Proof.
  split; [reflexivity|].
  exact (@write_to_mssql_db_empty_raises Demo.songs_server 0 "Songs" ["ID"; "Title"]
           Demo.no_songs Demo.connected eq_refl).
Defined.

(** ** Connection strings *)

Lemma append_empty_r (s : string) : s +:+ "" = s.
Proof.
  induction s as [|c s IH]; [done|].
  change (String c (s +:+ "") = String c s). by rewrite IH.
Qed.

Lemma split_on_nonempty sep s : split_on sep s <> [].
Proof.
  destruct s as [|c s]; simpl; [done|].
  destruct (Ascii.eqb sep c); [done|]. by destruct (split_on sep s).
Qed.

(** A piece without separator stays in front of what follows it. *)
Lemma split_on_app sep a b :
  count_char sep a = 0 -> split_on sep (a +:+ b) = append_head a (split_on sep b).
Proof.
  induction a as [|c a IH].
  - intros _. change ("" +:+ b) with b.
    pose proof (split_on_nonempty sep b). by destruct (split_on sep b).
  - change (String c a +:+ b) with (String c (a +:+ b)). simpl.
    destruct (Ascii.eqb sep c); [discriminate|]. simpl. intros Hfree.
    rewrite (IH Hfree). pose proof (split_on_nonempty sep b).
    by destruct (split_on sep b).
Qed.

Section ConnectionFacts.
Context `{Server}.

(** C7, amended.  For a server name, database name, user name and password
    that are single field values (no [;] in them): the two-argument overload connects
    with a string whose fields are the driver, the server, the database and
    [Trusted_Connection=yes], no [UID] and no [PWD]; the four-argument
    overload connects with a string whose [UID] and [PWD] fields carry the
    user name and the password. *)
Theorem get_mssql_db_connection_fields (server db_name username password : string) :
  count_char ";" server = 0 -> count_char ";" db_name = 0 ->
  count_char ";" username = 0 -> count_char ";" password = 0 ->
  Utils.get_mssql_db_connection_trusted server db_name
  = connect ("Driver=SQL Server;SERVER=" +:+ server +:+ ";DATABASE=" +:+ db_name
             +:+ ";Trusted_Connection=yes;")
  /\ fields (Utils.trusted_string server db_name)
     = [("Driver", "SQL Server"); ("SERVER", server); ("DATABASE", db_name);
        ("Trusted_Connection", "yes")]
  /\ Utils.get_mssql_db_connection server db_name username password
     = connect ("DRIVER=SQL Server;SERVER=" +:+ server +:+ ";DATABASE=" +:+ db_name
                +:+ ";UID=" +:+ username +:+ ";PWD=" +:+ password)
  /\ fields (Utils.credential_string server db_name username password)
     = [("DRIVER", "SQL Server"); ("SERVER", server); ("DATABASE", db_name);
        ("UID", username); ("PWD", password)].
Proof.
  intros Hs Hd Hu Hp.
  split; [reflexivity|]. split; [|split].
  - unfold fields, Utils.trusted_string. simpl.
    rewrite (split_on_app _ server) by done. simpl.
    rewrite (split_on_app _ db_name) by done. simpl.
    by rewrite !append_empty_r.
  - unfold Utils.get_mssql_db_connection, Utils.credential_string. simpl.
    by rewrite append_empty_r.
  - unfold fields, Utils.credential_string. simpl.
    rewrite (split_on_app _ server) by done. simpl.
    rewrite (split_on_app _ db_name) by done. simpl.
    rewrite (split_on_app _ username) by done. simpl.
    rewrite (split_on_app _ password) by done. simpl.
    by rewrite !append_empty_r.
Qed.

End ConnectionFacts.

(** C7 as the specification words it fails for arguments that hold a [;]:
    nothing is escaped, so what follows a [;] in the database name makes
    fields of its own, and the string of the two-argument overload then has
    a [UID] and a [PWD] field next to [Trusted_Connection=yes]. *)
Lemma get_mssql_db_connection_trusted_with_credentials :
  ~ credentials_as_specified "10.0.0.5" "Music;UID=sa;PWD=letmein" "dj" "s3cret".
Proof.
  intros (_ & Hnone & _).
  destruct (Hnone "UID" "sa") as [Huid _]; [|by apply Huid].
  vm_compute. auto.
Qed.

Example get_mssql_db_connection_password_cut :
  fields (Utils.credential_string "10.0.0.5" "Music" "dj" "s3;cret")
  = [("DRIVER", "SQL Server"); ("SERVER", "10.0.0.5"); ("DATABASE", "Music");
     ("UID", "dj"); ("PWD", "s3"); ("cret", "")].
Proof. reflexivity. Qed.

Lemma get_mssql_db_connection_fields_witness :
  (count_char ";" "10.0.0.5" = 0 /\ count_char ";" "Music" = 0
   /\ count_char ";" "dj" = 0 /\ count_char ";" "s3cret" = 0)
  /\ fields (Utils.trusted_string "10.0.0.5" "Music")
  = [("Driver", "SQL Server"); ("SERVER", "10.0.0.5"); ("DATABASE", "Music");
     ("Trusted_Connection", "yes")]
  /\ fields (Utils.credential_string "10.0.0.5" "Music" "dj" "s3cret")
     = [("DRIVER", "SQL Server"); ("SERVER", "10.0.0.5"); ("DATABASE", "Music");
        ("UID", "dj"); ("PWD", "s3cret")].
Proof.
  pose proof (@get_mssql_db_connection_fields Demo.songs_server
                "10.0.0.5" "Music" "dj" "s3cret" eq_refl eq_refl eq_refl eq_refl)
    as (_ & Htrusted & _ & Hcredentials).
  split; [repeat split|]. split; [exact Htrusted | exact Hcredentials].
Defined.

(** ** [load_config] *)

Section ConfigFacts.
Context `{Parsers}.


End ConfigFacts.


Example load_config_well_formed :
  @Utils.load_config Demo.parsers "config.yml" Demo.disk
  = (Return (YMap [("model_path", YStr "model.h5"); ("Songs", YStr "songs")]), Demo.disk).
Proof. reflexivity. Qed.

Example load_config_not_text :
  @Utils.load_config Demo.parsers "latin1.yml" Demo.disk
  = (Raise (ValueError "'utf-8' codec can't decode byte 0xff"), Demo.disk).
Proof. reflexivity. Qed.

(** ** [classifer] *)

Section ClassifierFacts.
Context `{Main.Model}.

Lemma argmax_from_bound best best_i i xs :
  best_i < i -> Main.argmax_from best best_i i xs < i + length xs.
Proof.
  revert best best_i i. induction xs as [|x xs IH]; intros best best_i i Hlt; simpl.
  - lia.
  - destruct (Main.score_gt x best).
    + specialize (IH x i (S i)). lia.
    + specialize (IH best best_i (S i)). lia.
Qed.

Lemma argmax_bound a label :
  Main.argmax a = Return label -> label < length (concat a).
Proof.
  unfold Main.argmax. destruct (concat a) as [|x xs]; [discriminate|].
  intros [= <-]. pose proof (argmax_from_bound x 0 1 xs). simpl. lia.
Qed.

Lemma class_dict_total label :
  label < 4 ->
  exists name, Main.class_dict !! label = Some name /\ In name emotion_labels.
Proof.
  intros Hlt.
  destruct label as [|[|[|[|label]]]]; [| | | |lia];
    eexists; (split; [reflexivity|]); simpl; auto.
Qed.

(** When [score_gt] is the strict part of a total preorder, the index
    [argmax_from] ends on holds an entry that none exceeds. *)
Lemma argmax_from_largest (before xs : list Main.score) best best_i :
  (forall a b c, Main.score_gt a b = false -> Main.score_gt b c = false ->
                 Main.score_gt a c = false) ->
  (forall a b, Main.score_gt a b = true -> Main.score_gt b a = false) ->
  (before ++ xs) !! best_i = Some best ->
  (forall y, In y before -> Main.score_gt y best = false) ->
  exists m,
    (before ++ xs) !! Main.argmax_from best best_i (length before) xs = Some m
    /\ forall y, In y (before ++ xs) -> Main.score_gt y m = false.
Proof.
  intros Htrans Hasym. revert before best best_i.
  induction xs as [|x xs IH]; intros before best best_i Hbest Hle; simpl.
  - exists best. split; [exact Hbest|]. by rewrite app_nil_r.
  - replace (before ++ x :: xs) with ((before ++ [x]) ++ xs) in *
      by (by rewrite <- app_assoc).
    replace (S (length before)) with (length (before ++ [x]))
      by (rewrite length_app; simpl; lia).
    destruct (Main.score_gt x best) eqn:Hgt.
    + apply IH.
      * rewrite <- app_assoc. simpl. by rewrite list_lookup_middle.
      * intros y Hy. apply in_app_or in Hy as [Hy|[<-|[]]].
        -- apply (Htrans y best x); [by apply Hle|by apply Hasym].
        -- destruct (Main.score_gt x x) eqn:Hxx; [|done].
           by rewrite (Hasym x x Hxx) in Hxx.
    + apply IH; [exact Hbest|].
      intros y Hy. apply in_app_or in Hy as [Hy|[<-|[]]]; [by apply Hle|exact Hgt].
Qed.

(** Under the same conditions that index is the first of its kind: the
    entry it holds exceeds every entry before it. *)
Lemma argmax_from_first (before xs : list Main.score) best best_i :
  (forall a b c, Main.score_gt a b = false -> Main.score_gt b c = false ->
                 Main.score_gt a c = false) ->
  (forall a b, Main.score_gt a b = true -> Main.score_gt b a = false) ->
  before !! best_i = Some best ->
  (forall y, In y before -> Main.score_gt y best = false) ->
  (forall j y, j < best_i -> before !! j = Some y -> Main.score_gt best y = true) ->
  forall m j y,
    (before ++ xs) !! Main.argmax_from best best_i (length before) xs = Some m ->
    j < Main.argmax_from best best_i (length before) xs ->
    (before ++ xs) !! j = Some y ->
    Main.score_gt m y = true.
Proof.
  intros Htrans Hasym. revert before best best_i.
  induction xs as [|x xs IH]; intros before best best_i Hbest Hle Hfirst m j y; simpl.
  - rewrite app_nil_r, Hbest. intros [= <-]. apply Hfirst.
  - replace (before ++ x :: xs) with ((before ++ [x]) ++ xs) in *
      by (by rewrite <- app_assoc).
    replace (S (length before)) with (length (before ++ [x]))
      by (rewrite length_app; simpl; lia).
    pose proof (lookup_lt_Some _ _ _ Hbest) as Hlt.
    destruct (Main.score_gt x best) eqn:Hgt.
    + apply IH.
      * by rewrite list_lookup_middle.
      * intros z Hz. apply in_app_or in Hz as [Hz|[<-|[]]].
        -- apply (Htrans z best x); [by apply Hle|by apply Hasym].
        -- destruct (Main.score_gt x x) eqn:Hxx; [|done].
           by rewrite (Hasym x x Hxx) in Hxx.
      * intros k z Hk Hz. rewrite lookup_app_l in Hz by done.
        destruct (Main.score_gt x z) eqn:Hxz; [done|].
        assert (In z before) as Hin
            by (eapply list_elem_of_In, list_elem_of_lookup_2, Hz).
        by rewrite (Htrans x z best Hxz (Hle z Hin)) in Hgt.
    + apply IH.
      * by rewrite lookup_app_l.
      * intros z Hz. apply in_app_or in Hz as [Hz|[<-|[]]]; [by apply Hle|exact Hgt].
      * intros k z Hk Hz. rewrite lookup_app_l in Hz by lia. by apply (Hfirst k).
Qed.

(** C3.  With the four-class model, and scores that [score_gt] compares
    like a strict order, [classifer] answers every tensor of the expected
    shape with one of the four labels, namely the name that [class_dict]
    gives to the arg-max index of the model's output: the index [argmax]
    computes, which is the first index of the four scores that holds a
    largest one (no score exceeds the one it holds, which exceeds every
    score before it). *)
Theorem classifer_returns_label (img_tensor : Main.tensor) :
  (forall a b c, Main.score_gt a b = false -> Main.score_gt b c = false ->
                 Main.score_gt a c = false) ->
  (forall a b, Main.score_gt a b = true -> Main.score_gt b a = false) ->
  four_class_model ->
  Main.tensor_shape img_tensor = [1; 48; 48; 1] ->
  exists row label m name,
    Main.predict_on_batch img_tensor = Return [row]
    /\ length row = 4
    /\ Main.argmax [row] = Return label
    /\ row !! label = Some m
    /\ (forall y, In y row -> Main.score_gt y m = false)
    /\ (forall j y, j < label -> row !! j = Some y -> Main.score_gt m y = true)
    /\ Main.class_dict !! label = Some name
    /\ Main.classifer img_tensor = Return name
    /\ In name emotion_labels.
Proof.
  intros Htrans Hasym Hmodel Hshape.
  destruct (Hmodel img_tensor Hshape) as (row & Hpredict & Hlen).
  destruct row as [|x xs]; [discriminate Hlen|].
  assert (Main.argmax [x :: xs] = Return (Main.argmax_from x 0 1 xs)) as Harg.
  { unfold Main.argmax. simpl. by rewrite app_nil_r. }
  pose proof (argmax_bound _ _ Harg) as Hbound.
  simpl in Hbound. rewrite app_nil_r in Hbound. simpl in Hlen. rewrite Hlen in Hbound.
  destruct (class_dict_total _ Hbound) as (name & Hname & Hin).
  assert (Hself : forall y, In y [x] -> Main.score_gt y x = false).
  { intros y [<-|[]]. destruct (Main.score_gt x x) eqn:Hxx; [|done].
    by rewrite (Hasym x x Hxx) in Hxx. }
  destruct (argmax_from_largest [x] xs x 0 Htrans Hasym eq_refl Hself) as (m & Hm & Hmax).
  exists (x :: xs), (Main.argmax_from x 0 1 xs), m, name.
  split; [exact Hpredict|]. split; [exact Hlen|]. split; [exact Harg|].
  split; [exact Hm|]. split; [exact Hmax|].
  split.
  { intros j y Hj Hy.
    apply (argmax_from_first [x] xs x 0 Htrans Hasym eq_refl Hself) with (j := j);
      [intros k z Hk; lia|exact Hm|exact Hj|exact Hy]. }
  split; [exact Hname|]. split; [|exact Hin].
  unfold Main.classifer. by rewrite Hpredict, Harg, Hname.
Qed.

End ClassifierFacts.

Lemma Z_gtb_le_trans (a b c : Z) :
  Z.gtb a b = false -> Z.gtb b c = false -> Z.gtb a c = false.
Proof. rewrite !Z.gtb_ltb, !Z.ltb_ge. lia. Qed.

Lemma Z_gtb_asym (a b : Z) : Z.gtb a b = true -> Z.gtb b a = false.
Proof. rewrite !Z.gtb_ltb, Z.ltb_lt, Z.ltb_ge. lia. Qed.

Lemma brightness_model_four_class : @four_class_model Demo.brightness_model.
Proof.
  intros t Hshape. simpl in *. rewrite Hshape. simpl. eauto.
Defined.

Lemma classifer_returns_label_witness :
  @four_class_model Demo.brightness_model
  /\ @Main.tensor_shape Demo.brightness_model Demo.bright_face = [1; 48; 48; 1]
  /\ exists row label m name,
       @Main.predict_on_batch Demo.brightness_model Demo.bright_face = Return [row]
       /\ length row = 4
       /\ @Main.argmax Demo.brightness_model [row] = Return label
       /\ row !! label = Some m
       /\ (forall y, In y row -> Z.gtb y m = false)
       /\ (forall j y, j < label -> row !! j = Some y -> Z.gtb m y = true)
       /\ Main.class_dict !! label = Some name
       /\ @Main.classifer Demo.brightness_model Demo.bright_face = Return name
       /\ In name emotion_labels.
Proof.
  split; [exact brightness_model_four_class|]. split; [reflexivity|].
  exact (@classifer_returns_label Demo.brightness_model Demo.bright_face
           Z_gtb_le_trans Z_gtb_asym brightness_model_four_class eq_refl).
Defined.

Example classifer_bright_face :
  @Main.classifer Demo.brightness_model Demo.bright_face = Return "Happy".
Proof. reflexivity. Qed.

(** ** [fetch_song_list] *)

(** *** Dropping a column *)

Lemma combine_drop label (cols : list string) (row : list cell) :
  combine (List.filter (fun c => negb (String.eqb label c)) cols)
          (map snd (List.filter (fun p => negb (String.eqb label (fst p)))
                      (combine cols row)))
  = List.filter (fun p : string * cell => negb (String.eqb label (fst p)))
      (combine cols row).
Proof.
  revert row. induction cols as [|c cols IH]; intros row; [done|].
  destruct row as [|x row]; simpl.
  - apply combine_nil.
  - destruct (negb (String.eqb label c)); simpl; by rewrite IH.
Qed.

Lemma find_other_label label other (cells : list (string * cell)) :
  other <> label ->
  find (fun p => String.eqb other (fst p))
       (List.filter (fun p => negb (String.eqb label (fst p))) cells)
  = find (fun p => String.eqb other (fst p)) cells.
Proof.
  intros Hne. induction cells as [|[c x] cells IH]; simpl; [done|].
  destruct (String.eqb label c) eqn:Hlabel; simpl.
  - apply String.eqb_eq in Hlabel. subst c.
    destruct (String.eqb other label) eqn:Hother; [|exact IH].
    apply String.eqb_eq in Hother. contradiction.
  - by rewrite IH.
Qed.

Lemma drop_spec label (table : DataFrame) :
  In label (columns table) ->
  exists df,
    drop label table = Return df
    /\ columns df = List.filter (fun c => negb (String.eqb label c)) (columns table)
    /\ ~ In label (columns df)
    /\ length (values df) = length (values table)
    /\ forall other, other <> label -> column other df = column other table.
Proof.
  intros Hin. unfold drop.
  assert (Hex : existsb (String.eqb label) (columns table) = true).
  { apply existsb_exists. exists label. split; [exact Hin|apply String.eqb_refl]. }
  rewrite Hex. eexists. split; [reflexivity|]. simpl. repeat split.
  - intros Hkept. apply filter_In in Hkept as [_ Hkept].
    by rewrite String.eqb_refl in Hkept.
  - by rewrite length_map.
  - intros other Hne. unfold column, labelled. simpl. rewrite map_map.
    apply map_ext. intros row. by rewrite combine_drop, find_other_label.
Qed.

Section PlaylistFacts.
Context `{OsPath} `{Parsers}.

Ltac run_fetch :=
  unfold Main.fetch_song_list, listdir, read_excel; run_py.

(** C5, as amended.  For a label whose directory under the configured
    [Songs] root is not empty and whose first listed entry is a file that
    loads as a table with an [ID] column, [fetch_song_list] returns that table
    without the [ID] column: the other columns and the rows are as loaded. *)
Theorem fetch_song_list_first_table (configs data : yaml) (root emo_class first : string)
    (rest : list string) (content : string) (table : DataFrame) (w : Os.world) :
  getitem configs "data" = Return data ->
  getitem data "Songs" = Return (YStr root) ->
  files w !! os_path_join root emo_class = Some (Dir (first :: rest)) ->
  files w !! os_path_join (os_path_join root emo_class) first = Some (File content) ->
  excel_parse content = Some table ->
  In "ID" (columns table) ->
  exists df,
    Main.fetch_song_list configs emo_class w = (Return df, w)
    /\ ~ In "ID" (columns df)
    /\ columns df = List.filter (fun c => negb (String.eqb "ID" c)) (columns table)
    /\ length (values df) = length (values table)
    /\ forall other, other <> "ID" -> column other df = column other table.
Proof.
  intros Hdata Hsongs Hdir Hfile Hparse Hid.
  destruct (drop_spec "ID" table Hid) as (df & Hdrop & Hcols & Hgone & Hrows & Hother).
  exists df. split; [|by repeat split].
  run_fetch. rewrite Hdata. simpl. rewrite Hsongs. simpl. rewrite Hdir. simpl.
  rewrite Hfile, Hparse. simpl. by rewrite Hdrop.
Qed.

(** C8.  For a label whose directory exists and holds no file, the call
    raises and nothing is returned in its place; for an empty directory the
    exception is the [IndexError] of taking the first entry. *)
Theorem fetch_song_list_no_file (configs data : yaml) (root emo_class : string)
    (entries : list string) (w : Os.world) :
  getitem configs "data" = Return data ->
  getitem data "Songs" = Return (YStr root) ->
  files w !! os_path_join root emo_class = Some (Dir entries) ->
  (forall entry content,
      In entry entries ->
      files w !! os_path_join (os_path_join root emo_class) entry <> Some (File content)) ->
  exists e,
    Main.fetch_song_list configs emo_class w = (Raise e, w)
    /\ (entries = [] -> e = IndexError "list index out of range").
Proof.
  intros Hdata Hsongs Hdir Hnofile.
  run_fetch. rewrite Hdata. simpl. rewrite Hsongs. simpl. rewrite Hdir. simpl.
  destruct entries as [|first rest]; simpl.
  - eexists. split; [reflexivity|done].
  - specialize (Hnofile first).
    destruct (files w !! os_path_join (os_path_join root emo_class) first)
      as [[content|sub]|] eqn:Hfirst.
    + exfalso. by apply (Hnofile content); [left|].
    + eexists. split; [reflexivity|done].
    + eexists. split; [reflexivity|done].
Qed.

End PlaylistFacts.

Lemma fetch_song_list_first_table_witness :
  (getitem Demo.configs "data"
   = Return (YMap [("model_path", YStr "model.h5"); ("Songs", YStr "songs")])
   /\ files Demo.disk !! "songs/Happy" = Some (Dir ["happy.xlsx"])
   /\ In "ID" (columns Demo.happy_table))
  /\ exists df,
       @Main.fetch_song_list Demo.posix Demo.parsers Demo.configs "Happy" Demo.disk
       = (Return df, Demo.disk)
       /\ ~ In "ID" (columns df)
       /\ columns df = ["Title"; "Artist"]
       /\ length (values df) = 2
       /\ forall other, other <> "ID" -> column other df = column other Demo.happy_table.
Proof.
  split; [repeat split; simpl; auto|].
  exact (@fetch_song_list_first_table Demo.posix Demo.parsers Demo.configs
           (YMap [("model_path", YStr "model.h5"); ("Songs", YStr "songs")])
           "songs" "Happy" "happy.xlsx" []
           ("ID,Title,Artist" +:+ Demo.nl +:+ "1,Walking on sunshine,Katrina"
            +:+ Demo.nl +:+ "2,Lovely day,Bill Withers" +:+ Demo.nl)
           Demo.happy_table Demo.disk
           eq_refl eq_refl eq_refl eq_refl eq_refl (or_introl eq_refl)).
Defined.

(** C5 as the specification words it fails on a directory that is not empty
    but whose first file has no [ID] column: the call raises [KeyError]
    where the claim has it return the table. *)
Lemma fetch_song_list_table_without_ID :
  files Demo.disk !! "songs/Neutral" = Some (Dir ["calm.xlsx"])
  /\ @excel_parse Demo.parsers ("Title,Artist" +:+ Demo.nl +:+ "Clair de lune,Debussy" +:+ Demo.nl)
     = Some {| columns := ["Title"; "Artist"];
               values := [[CStr "Clair de lune"; CStr "Debussy"]] |}
  /\ @Main.fetch_song_list Demo.posix Demo.parsers Demo.configs "Neutral" Demo.disk
     = (Raise (KeyError "ID"), Demo.disk).
Proof. repeat split. Qed.

Lemma fetch_song_list_no_file_witness :
  files Demo.disk !! "songs/Sad" = Some (Dir [])
  /\ exists e,
       @Main.fetch_song_list Demo.posix Demo.parsers Demo.configs "Sad" Demo.disk
       = (Raise e, Demo.disk)
       /\ (@nil string = [] -> e = IndexError "list index out of range").
Proof.
  split; [reflexivity|].
  refine (@fetch_song_list_no_file Demo.posix Demo.parsers Demo.configs
            (YMap [("model_path", YStr "model.h5"); ("Songs", YStr "songs")])
            "songs" "Sad" [] Demo.disk eq_refl eq_refl eq_refl _).
  intros entry content Hin. destruct Hin.
Defined.

Example fetch_song_list_only_subdirectory :
  fst (@Main.fetch_song_list Demo.posix Demo.parsers Demo.configs "Angry" Demo.disk)
  = Raise (OSError "songs/Angry/old").
Proof. reflexivity. Qed.

(** * Further properties of the code *)

(** ** [get_logger]: what else it does to the registry *)

Section GetLoggerMore.
Context `{OsPath}.

(** X1.  However the call ends, by the guard's [ValueError], by the exception
    of a log file that cannot be opened or by returning, the logger of the
    log path no longer propagates afterwards and, unless the path names the
    root logger, is registered under the path; its level is [DEBUG] when the
    call returned with [debug] on and [INFO] in every other case, whatever
    it was before. *)
Theorem get_logger_registers (lp ln : string) (wtf wtc dbg : bool) (w : Logging.world)
    (r : outcome string) (w' : Logging.world) :
  Utils.get_logger lp ln wtf wtc dbg w = (r, w') ->
  propagate (the_logger w' (log_path w lp ln)) = false
  /\ lvl (the_logger w' (log_path w lp ln))
     = match r with
       | Return _ => if dbg then DEBUG else INFO
       | Raise _ => INFO
       end
  /\ (is_root (log_path w lp ln) = false ->
      exists l, loggerDict w' !! log_path w lp ln = Some (ALogger l)).
Proof.
  intros Hrun.
  destruct (get_logger_cases lp ln wtf wtc dbg w)
    as [(e & Hraise)|(w1 & Hreturn & _ & Hown & Hholds)].
  - rewrite Hraise in Hrun. injection Hrun as <- <-.
    pose proof (own_prepared (log_path w lp ln) w) as Hown.
    injection Hown as Hp Hl _.
    split; [exact Hp|]. split; [exact Hl|]. apply prepared_holds_logger.
  - rewrite Hreturn in Hrun. injection Hrun as <- <-.
    injection Hown as Hp Hl _. by repeat split.
Qed.

(** X2.  The call keeps to its own logger.  What a logger registered under
    another name has of its own (propagate flag, level, handlers) is as it
    was, and no other name gains or loses a logger; the clock is as it was;
    and so is the root logger, unless the log path names it.  (The manager
    may have made the new logger the parent of loggers below its name.) *)
Theorem get_logger_frame (lp ln : string) (wtf wtc dbg : bool) (w : Logging.world)
    (other : string) :
  other <> log_path w lp ln ->
  own_at (loggerDict (snd (Utils.get_logger lp ln wtf wtc dbg w))) other
  = own_at (loggerDict w) other
  /\ clock (snd (Utils.get_logger lp ln wtf wtc dbg w)) = clock w
  /\ (is_root (log_path w lp ln) = false ->
      root_logger (snd (Utils.get_logger lp ln wtf wtc dbg w)) = root_logger w).
Proof.
  intros Hother.
  assert (Halone : leaves_alone (log_path w lp ln) w
                     (snd (Utils.get_logger lp ln wtf wtc dbg w))).
  { destruct (get_logger_cases lp ln wtf wtc dbg w)
      as [(e & ->)|(w1 & -> & Halone & _)]; [apply leaves_alone_prepared|exact Halone]. }
  destruct Halone as (Hclock & _ & Hown & Hroot).
  split; [by apply Hown|]. by split.
Qed.

(** X3.  Handlers pile up: when two calls in the same second for the same
    path and prefix both return, they return the same logger, and it is left
    with the handlers it had, then those of the first call, then those of
    the second. *)
Theorem get_logger_twice (lp ln : string) (wtf1 wtc1 dbg1 wtf2 wtc2 dbg2 : bool)
    (w w1 w2 : Logging.world) (lg1 lg2 : string) :
  Utils.get_logger lp ln wtf1 wtc1 dbg1 w = (Return lg1, w1) ->
  Utils.get_logger lp ln wtf2 wtc2 dbg2 w1 = (Return lg2, w2) ->
  lg1 = log_path w lp ln
  /\ lg2 = lg1
  /\ handlers (the_logger w2 lg2)
     = handlers (the_logger w lg1) ++ attached lg1 wtf1 wtc1 ++ attached lg1 wtf2 wtc2.
Proof.
  intros Hrun1 Hrun2.
  destruct (get_logger_cases lp ln wtf1 wtc1 dbg1 w)
    as [(e & Hraise)|(w1' & Hreturn & Halone & Hown1 & _)];
    [rewrite Hraise in Hrun1; discriminate Hrun1|].
  rewrite Hreturn in Hrun1. injection Hrun1 as <- Hw. subst w1'.
  assert (Hpath : log_path w1 lp ln = log_path w lp ln).
  { unfold log_path. destruct Halone as (-> & _). reflexivity. }
  destruct (get_logger_cases lp ln wtf2 wtc2 dbg2 w1)
    as [(e & Hraise)|(w2' & Hreturn2 & _ & Hown2 & _)];
    [rewrite Hraise in Hrun2; discriminate Hrun2|].
  rewrite Hreturn2 in Hrun2. injection Hrun2 as <- Hw. subst w2'.
  rewrite Hpath in *.
  split; [reflexivity|]. split; [reflexivity|].
  injection Hown1 as _ _ Hh1. injection Hown2 as _ _ Hh2.
  by rewrite Hh2, Hh1, <- app_assoc.
Qed.

End GetLoggerMore.

Lemma get_logger_registers_witness :
  lvl (the_logger
         (snd (@Utils.get_logger Demo.posix "nowhere" "app" true true true Demo.quiet))
         "nowhere/app_2026-03-07_09_05_00.log") = INFO.
Proof.
  exact (proj1 (proj2 (@get_logger_registers Demo.posix "nowhere" "app" true true true
                         Demo.quiet
                         (Raise (OSError "nowhere/app_2026-03-07_09_05_00.log"))
                         _ eq_refl))).
Defined.

Lemma get_logger_frame_witness :
  "logs/app_2026-03-07_09_05_00.log"
  <> @log_path Demo.posix Demo.after_first_call "logs" "web"
  /\ option_map (fun o => map is_file_handler (snd o))
       (own_at (loggerDict (snd (@Utils.get_logger Demo.posix "logs" "web" true false true
                                   Demo.after_first_call)))
          "logs/app_2026-03-07_09_05_00.log")
     = Some [true; false].
Proof.
  assert (Hother : "logs/app_2026-03-07_09_05_00.log"
                   <> @log_path Demo.posix Demo.after_first_call "logs" "web")
    by discriminate.
  split; [exact Hother|].
  rewrite (proj1 (@get_logger_frame Demo.posix "logs" "web" true false true
                    Demo.after_first_call "logs/app_2026-03-07_09_05_00.log" Hother)).
  reflexivity.
Defined.

Lemma get_logger_twice_witness :
  map is_file_handler
    (handlers
       (the_logger
          (snd (@Utils.get_logger Demo.posix "logs" "app" true false false
                  Demo.after_first_call))
          "logs/app_2026-03-07_09_05_00.log"))
  = [true; false; true].
Proof.
  pose proof (@get_logger_twice Demo.posix "logs" "app" true true false true false false
                Demo.quiet Demo.after_first_call _
                "logs/app_2026-03-07_09_05_00.log" "logs/app_2026-03-07_09_05_00.log"
                eq_refl eq_refl) as (_ & _ & Hh).
  exact (f_equal (map is_file_handler) Hh).
Defined.

(** ** [load_config]: every way it can end *)

Section ConfigMore.
Context `{Parsers}.


End ConfigMore.


(** ** The database helpers: what reaches the driver *)

Section DatabaseMore.
Context `{Server}.

(** X5.  Whatever happens, the connection-taking [write_to_mssql_db] asks the
    driver for nothing but a cursor, the one INSERT statement with all rows of
    the frame, and a commit; it never closes the connection.  It commits
    exactly when it returns: a refused statement is left uncommitted. *)
Theorem write_to_mssql_db_commits_iff_returns (db_con : connection) (table_name : string)
    (column_list : list string) (value_df : DataFrame) (w w' : Odbc.world)
    (r : outcome unit) :
  Utils.write_to_mssql_db db_con table_name column_list value_df w = (r, w') ->
  exists new,
    w' = new ++ w
    /\ (r = Return tt <-> In (EvCommit db_con) new)
    /\ (r = Return tt ->
        new = [EvCommit db_con;
               EvExecuteMany db_con
                 (Utils.insert_statement table_name column_list value_df)
                 (values value_df);
               EvCursor db_con])
    /\ forall e, In e new ->
          e = EvCursor db_con
          \/ e = EvExecuteMany db_con
                   (Utils.insert_statement table_name column_list value_df)
                   (values value_df)
          \/ e = EvCommit db_con.
Proof.
  run_db. destruct (Nat.eqb (length (values value_df)) 0); simpl.
  { intros [= <- <-]. exists []. repeat split; done. }
  destruct (is_open db_con w) eqn:Hopen; simpl.
  2:{ intros [= <- <-]. exists []. repeat split; done. }
  rewrite Hopen. unfold values_tolist.
  destruct (srv_executemany _ _ _ _) as [err|]; simpl.
  - intros [= <- <-]. eexists [_; _]. split; [reflexivity|].
    split; [split; [done|intros [?|[?|[]]]; done]|]. split; [done|].
    intros e [<-|[<-|[]]]; auto.
  - rewrite Hopen. intros [= <- <-]. eexists [_; _; _]. split; [reflexivity|].
    split; [split; [by left|done]|]. split; [done|].
    intros e [<-|[<-|[<-|[]]]]; auto.
Qed.

(** X6.  [read_from_mssql_db] returns a frame only for an open connection and
    a statement with a result set.  The frame then has the description's names
    as columns and the fetched rows as values, cast to one element type; the
    driver was asked for a cursor and for the statement, nothing more. *)
Theorem read_from_mssql_db_returns_only_result_sets (db_con : connection) (sql : string)
    (w w' : Odbc.world) (df : DataFrame) :
  Utils.read_from_mssql_db db_con sql w = (Return df, w') ->
  is_open db_con w = true
  /\ w' = EvExecute db_con sql :: EvCursor db_con :: w
  /\ exists rs,
       srv_execute (EvCursor db_con :: w) db_con sql = inr (Some rs)
       /\ columns df = map fst (description rs)
       /\ values df = map (map (cast (common_dtype (rows rs)))) (rows rs).
Proof.
  unfold Utils.read_from_mssql_db, conn_cursor, cursor_execute, cursor_fetchall,
    cursor_description, closed_error.
  unfold mbind, py_bind, mret, py_ret, bind, ret, raise, lift.
  destruct (is_open db_con w) eqn:Hopen; [|discriminate].
  cbn [cur_conn is_open]. rewrite Hopen.
  destruct (srv_execute (EvCursor db_con :: w) db_con sql) as [err|[rs|]];
    [discriminate| |discriminate].
  cbn [cur_result fmap option_fmap option_map]. rewrite description_names_map.
  destruct (rows rs) as [|row data] eqn:Hrows; cbn [length Nat.ltb Nat.leb].
  - intros [= <- <-]. split; [done|]. split; [done|]. exists rs. by rewrite Hrows.
  - destruct (np_array (row :: data)) as [arr|e] eqn:Harr; [|discriminate].
    unfold DataFrame_of_array.
    destruct (rectangular (length (map fst (description rs))) arr); [|discriminate].
    intros [= <- <-]. split; [done|]. split; [done|]. exists rs.
    split; [done|]. split; [done|]. rewrite Hrows. cbn [values].
    unfold np_array in Harr.
    destruct (rectangular (length row) (row :: data)); [|discriminate].
    by injection Harr as <-.
Qed.

(** X7.  Whatever the outcome, [read_from_mssql_db] asks the driver for a
    cursor and for the statement at most: it commits nothing and leaves the
    connection open or closed as it found it. *)
Theorem read_from_mssql_db_sends_only_the_query (db_con : connection) (sql : string)
    (w w' : Odbc.world) (r : outcome DataFrame) :
  Utils.read_from_mssql_db db_con sql w = (r, w') ->
  w' = w \/ w' = EvExecute db_con sql :: EvCursor db_con :: w.
Proof.
  run_db. destruct (is_open db_con w) eqn:Hopen; simpl; [|intros [= <- <-]; by left].
  rewrite Hopen.
  destruct (srv_execute (EvCursor db_con :: w) db_con sql) as [err|[rs|]]; simpl;
    try (intros [= <- <-]; by right).
  destruct (Nat.ltb 0 (length (rows rs))); simpl; [|intros [= <- <-]; by right].
  destruct (np_array (rows rs)) as [arr|e]; simpl; [|intros [= <- <-]; by right].
  destruct (DataFrame_of_array arr _); intros [= <- <-]; by right.
Qed.

(** X8.  A statement without result set (an INSERT, an UPDATE) handed to
    [read_from_mssql_db] is executed all the same; the call raises only
    afterwards, when it fetches. *)
Theorem read_from_mssql_db_executes_non_queries (db_con : connection) (sql : string)
    (w : Odbc.world) :
  is_open db_con w = true ->
  srv_execute (EvCursor db_con :: w) db_con sql = inr None ->
  Utils.read_from_mssql_db db_con sql w
  = (Raise (DriverError "No results.  Previous SQL was not a query."),
     EvExecute db_con sql :: EvCursor db_con :: w).
Proof. intros Hopen Hexec. run_db. rewrite Hopen. simpl. by rewrite Hopen, Hexec. Qed.

(** X9.  Given credentials and a frame without rows, [write_to_mssql_db]
    opens a connection, raises [ValueError] and never closes the connection:
    the one thing it did to the driver is the login. *)
Theorem write_to_mssql_db_credentials_empty_leaves_open
    (server db_name username password table_name : string) (column_list : list string)
    (value_df : DataFrame) (w : Odbc.world) :
  fst (shape value_df) = 0 ->
  srv_connect w (Utils.credential_string server db_name username password) = None ->
  Utils.write_to_mssql_db_credentials server db_name username password
    table_name column_list value_df w
  = (Raise (ValueError "Data frmae is empty"),
     EvConnect (Utils.credential_string server db_name username password) (opened w) :: w)
  /\ is_open (opened w)
       (EvConnect (Utils.credential_string server db_name username password) (opened w) :: w)
     = true.
Proof.
  intros Hempty Hlogin. simpl in Hempty.
  unfold Utils.write_to_mssql_db_credentials, Utils.get_mssql_db_connection, connect.
  run_db. rewrite Hlogin, Hempty. simpl. by rewrite Nat.eqb_refl.
Qed.

End DatabaseMore.

Lemma write_to_mssql_db_commits_iff_returns_witness :
  exists new,
    Demo.after_write = new ++ Demo.connected
    /\ (Return tt = Return tt <-> In (EvCommit 0) new)
    /\ length new = 3.
Proof.
  destruct (@write_to_mssql_db_commits_iff_returns Demo.songs_server 0 "Songs"
              ["ID"; "Title"] Demo.two_songs Demo.connected Demo.after_write (Return tt)
              eq_refl) as (new & Hnew & Hcommit & Hall & _).
  exists new. split; [exact Hnew|]. split; [exact Hcommit|].
  by rewrite (Hall eq_refl).
Defined.

Lemma read_from_mssql_db_returns_only_result_sets_witness :
  is_open 0 Demo.after_write = true
  /\ exists rs,
       @srv_execute Demo.songs_server (EvCursor 0 :: Demo.after_write) 0 Demo.songs_query
       = inr (Some rs)
       /\ ["ID"; "Title"] = map fst (description rs).
Proof.
  destruct (@read_from_mssql_db_returns_only_result_sets Demo.songs_server 0
              Demo.songs_query Demo.after_write
              (EvExecute 0 Demo.songs_query :: EvCursor 0 :: Demo.after_write)
              {| columns := ["ID"; "Title"];
                 values := [[CStr "1"; CStr "Clair de lune"];
                            [CStr "2"; CStr "Here comes the sun"]] |}
              eq_refl) as (Hopen & _ & rs & Hexec & Hcols & _).
  split; [exact Hopen|]. exists rs. split; [exact Hexec|exact Hcols].
Defined.

Lemma read_from_mssql_db_sends_only_the_query_witness :
  let w' := snd (@Utils.read_from_mssql_db Demo.songs_server 0 "DROP TABLE Songs"
                   Demo.connected) in
  w' = Demo.connected
  \/ w' = EvExecute 0 "DROP TABLE Songs" :: EvCursor 0 :: Demo.connected.
Proof.
  exact (@read_from_mssql_db_sends_only_the_query Demo.songs_server 0 "DROP TABLE Songs"
           Demo.connected _ (Raise (DriverError "Incorrect syntax")) eq_refl).
Defined.

Lemma read_from_mssql_db_executes_non_queries_witness :
  @Utils.read_from_mssql_db Cases.touching_server 0 Cases.touch Demo.connected
  = (Raise (DriverError "No results.  Previous SQL was not a query."),
     EvExecute 0 Cases.touch :: EvCursor 0 :: Demo.connected).
Proof.
  exact (@read_from_mssql_db_executes_non_queries Cases.touching_server 0 Cases.touch
           Demo.connected eq_refl eq_refl).
Defined.

Lemma write_to_mssql_db_credentials_empty_leaves_open_witness :
  fst (@Utils.write_to_mssql_db_credentials Demo.songs_server "10.0.0.5" "Music" "dj"
         "s3cret" "Songs" ["ID"; "Title"] Demo.no_songs Demo.connected)
  = Raise (ValueError "Data frmae is empty")
  /\ is_open 1
       (EvConnect (Utils.credential_string "10.0.0.5" "Music" "dj" "s3cret") 1
        :: Demo.connected) = true.
Proof.
  destruct (@write_to_mssql_db_credentials_empty_leaves_open Demo.songs_server
              "10.0.0.5" "Music" "dj" "s3cret" "Songs" ["ID"; "Title"] Demo.no_songs
              Demo.connected eq_refl eq_refl) as [Hrun Hopen].
  split; [by rewrite Hrun|exact Hopen].
Defined.

(** *** Element types *)

Lemma promote_text (cells : list cell) (d : dtype) :
  d <> DObject ->
  ~ In CNone cells ->
  d = DStr \/ (exists s, In (CStr s) cells) ->
  fold_left (fun d x => promote d (dtype_of x)) cells d = DStr.
Proof.
  revert d. induction cells as [|c cells IH]; intros d Hd Hnone Htext; simpl.
  - destruct Htext as [->|[s []]]. reflexivity.
  - apply IH.
    + destruct c; [exfalso; apply Hnone; by left|..]; by destruct d.
    + intros Hin. apply Hnone. by right.
    + destruct Htext as [->|[s [->|Hin]]].
      * left. destruct c; try reflexivity. exfalso. apply Hnone. by left.
      * left. by destruct d.
      * right. by exists s.
Qed.

Lemma common_dtype_text (data : list (list cell)) :
  (exists s, In (CStr s) (concat data)) ->
  ~ In CNone (concat data) ->
  common_dtype data = DStr.
Proof.
  unfold common_dtype. destruct (concat data) as [|c cells]; intros [s Hs] Hnone.
  - destruct Hs.
  - apply promote_text.
    + destruct c; try discriminate. exfalso. apply Hnone. by left.
    + intros Hin. apply Hnone. by right.
    + destruct Hs as [->|Hs]; [by left|right; by exists s].
Qed.

Lemma cast_text (c : cell) : c <> CNone -> exists s, cast DStr c = CStr s.
Proof. destruct c; [done|eauto..]. Qed.

Section ReadMore.
Context `{Server}.

Lemma read_result_set (db_con : connection) (sql : string) (w : Odbc.world)
    (rs : result_set) :
  yields_result_set db_con sql w rs ->
  rows rs <> [] ->
  Utils.read_from_mssql_db db_con sql w
  = (Return {| columns := map fst (description rs);
               values := map (map (cast (common_dtype (rows rs)))) (rows rs) |},
     EvExecute db_con sql :: EvCursor db_con :: w).
Proof.
  intros (Hopen & Hexec & Hrect) Hrows.
  unfold Utils.read_from_mssql_db, conn_cursor, cursor_execute, cursor_fetchall,
    cursor_description.
  unfold mbind, py_bind, mret, py_ret, bind, ret, lift.
  rewrite Hopen. cbn [cur_conn is_open]. rewrite Hopen, Hexec.
  cbn [cur_result fmap option_fmap option_map].
  rewrite description_names_map.
  rewrite (np_array_rectangular _ _ Hrows Hrect).
  rewrite DataFrame_of_array_rectangular by (by rewrite length_map, rectangular_cast).
  destruct (rows rs); [done|reflexivity].
Qed.

(** X10.  Of result sets whose cells are all integers of at most 64 bits,
    truth values, text or [None] (columns of SQL Server's integer, [bit] and
    character types): one that holds text in some cell and [None] in none
    comes back as text throughout.  Every integer and truth value is
    replaced by its string, because the rows pass through one [numpy]
    array. *)
Theorem read_from_mssql_db_text_everywhere (db_con : connection) (sql : string)
    (w : Odbc.world) (rs : result_set) :
  yields_result_set db_con sql w rs ->
  (forall z, In (CInt z) (concat (rows rs)) -> (- 2 ^ 63 <= z < 2 ^ 63)%Z) ->
  (exists s, In (CStr s) (concat (rows rs))) ->
  ~ In CNone (concat (rows rs)) ->
  exists df w',
    Utils.read_from_mssql_db db_con sql w = (Return df, w')
    /\ values df = map (map (cast DStr)) (rows rs)
    /\ forall row c, In row (values df) -> In c row -> exists s, c = CStr s.
Proof.
  intros Hyields _ Htext Hnone.
  assert (Hrows : rows rs <> []).
  { destruct Htext as [s Hs]. intros Hnil. by rewrite Hnil in Hs. }
  rewrite (read_result_set _ _ _ _ Hyields Hrows), (common_dtype_text _ Htext Hnone).
  eexists _, _. split; [reflexivity|]. split; [reflexivity|].
  intros row c Hrow Hc. cbn [values] in Hrow.
  apply in_map_iff in Hrow as (row0 & <- & Hrow0).
  apply in_map_iff in Hc as (c0 & <- & Hc0).
  apply cast_text. intros ->. apply Hnone. apply in_concat. eauto.
Qed.

End ReadMore.

Lemma read_from_mssql_db_text_everywhere_witness :
  exists df w',
    @Utils.read_from_mssql_db Demo.songs_server 0 Demo.songs_query Demo.after_write
    = (Return df, w')
    /\ values df = [[CStr "1"; CStr "Clair de lune"]; [CStr "2"; CStr "Here comes the sun"]]
    /\ forall row c, In row (values df) -> In c row -> exists s, c = CStr s.
Proof.
  refine (@read_from_mssql_db_text_everywhere Demo.songs_server 0 Demo.songs_query
            Demo.after_write Demo.songs_result _ _ _ _).
  - repeat split.
  - simpl. intros z [Hz|[Hz|[Hz|[Hz|[]]]]]; try discriminate Hz;
      injection Hz as <-; lia.
  - exists "Clair de lune". simpl. auto.
  - simpl. intros [H|[H|[H|[H|[]]]]]; discriminate H.
Defined.

(** ** [classifer]: which label, and when none *)

Lemma class_dict_beyond (label : nat) : 4 <= label -> Main.class_dict !! label = None.
Proof.
  intros Hge. unfold Main.class_dict. simpl.
  rewrite !lookup_insert_ne by lia. apply lookup_empty.
Qed.

Section ClassifierMore.
Context `{Main.Model}.

Lemma argmax_from_stays best best_i i xs :
  (forall y, In y xs -> Main.score_gt y best = false) ->
  Main.argmax_from best best_i i xs = best_i.
Proof.
  revert i. induction xs as [|x xs IH]; intros i Hle; simpl; [done|].
  rewrite (Hle x) by (by left). apply IH. intros y Hy. apply Hle. by right.
Qed.

(** X11.  When [score_gt] compares like a strict order, the label that
    [classifer] returns is the class of a largest score: no entry of the
    model's output exceeds the entry at the label's index. *)
Theorem classifer_picks_a_largest_score (img_tensor : Main.tensor)
    (result : list (list Main.score)) (name : string) :
  (forall a b c, Main.score_gt a b = false -> Main.score_gt b c = false ->
                 Main.score_gt a c = false) ->
  (forall a b, Main.score_gt a b = true -> Main.score_gt b a = false) ->
  Main.predict_on_batch img_tensor = Return result ->
  Main.classifer img_tensor = Return name ->
  exists label m,
    Main.class_dict !! label = Some name
    /\ concat result !! label = Some m
    /\ forall y, In y (concat result) -> Main.score_gt y m = false.
Proof.
  intros Htrans Hasym Hpredict. unfold Main.classifer, Main.argmax. rewrite Hpredict.
  destruct (concat result) as [|x xs] eqn:Hflat; [discriminate|].
  destruct (Main.class_dict !! Main.argmax_from x 0 1 xs) as [name'|] eqn:Hname;
    [|discriminate].
  intros [= <-].
  destruct (argmax_from_largest [x] xs x 0 Htrans Hasym eq_refl) as (m & Hm & Hmax).
  { intros y [<-|[]]. destruct (Main.score_gt x x) eqn:Hxx; [|done].
    by rewrite (Hasym x x Hxx) in Hxx. }
  exists (Main.argmax_from x 0 1 xs), m. by repeat split.
Qed.

(** X12.  [classifer] has a name for the arg-max index only below four: a
    model whose largest score sits at index four or beyond makes it raise
    [KeyError] with that index. *)
Theorem classifer_index_beyond_classes (img_tensor : Main.tensor)
    (result : list (list Main.score)) (label : nat) :
  Main.predict_on_batch img_tensor = Return result ->
  Main.argmax result = Return label ->
  4 <= label ->
  Main.classifer img_tensor = Raise (KeyError (decimal label)).
Proof.
  intros Hpredict Hlabel Hge. unfold Main.classifer.
  by rewrite Hpredict, Hlabel, class_dict_beyond.
Qed.

(** X13.  Ties go to the first class: when no score of the output exceeds the
    first one, in particular when all scores are equal, the label is
    [Angry]. *)
Theorem classifer_flat_prediction (img_tensor : Main.tensor)
    (result : list (list Main.score)) (x : Main.score) (xs : list Main.score) :
  Main.predict_on_batch img_tensor = Return result ->
  concat result = x :: xs ->
  (forall y, In y xs -> Main.score_gt y x = false) ->
  Main.classifer img_tensor = Return "Angry".
Proof.
  intros Hpredict Hflat Hle. unfold Main.classifer, Main.argmax.
  by rewrite Hpredict, Hflat, argmax_from_stays.
Qed.

End ClassifierMore.

Lemma classifer_picks_a_largest_score_witness :
  exists label m,
    Main.class_dict !! label = Some "Happy"
    /\ [(50 - 200)%Z; (200 - 150)%Z; 0%Z; (100 - 200)%Z] !! label = Some m
    /\ forall y, In y [(50 - 200)%Z; (200 - 150)%Z; 0%Z; (100 - 200)%Z] ->
                 Z.gtb y m = false.
Proof.
  exact (@classifer_picks_a_largest_score Demo.brightness_model Demo.bright_face
           [[(50 - 200)%Z; (200 - 150)%Z; 0%Z; (100 - 200)%Z]] "Happy"
           Z_gtb_le_trans Z_gtb_asym eq_refl eq_refl).
Defined.

Lemma classifer_index_beyond_classes_witness :
  @Main.argmax Cases.seven_class_model [[0%Z; 0%Z; 1%Z; 0%Z; 0%Z; 200%Z; 0%Z]] = Return 5
  /\ @Main.classifer Cases.seven_class_model Demo.bright_face = Raise (KeyError "5").
Proof.
  split; [reflexivity|].
  exact (@classifer_index_beyond_classes Cases.seven_class_model Demo.bright_face
           [[0%Z; 0%Z; 1%Z; 0%Z; 0%Z; 200%Z; 0%Z]] 5 eq_refl eq_refl
           (le_S 4 4 (le_n 4))).
Defined.

Lemma classifer_flat_prediction_witness :
  @Main.classifer Cases.undecided_model Demo.bright_face = Return "Angry".
Proof.
  refine (@classifer_flat_prediction Cases.undecided_model Demo.bright_face
            [[25%Z; 25%Z; 25%Z; 25%Z]] 25%Z [25%Z; 25%Z; 25%Z] eq_refl eq_refl _).
  intros y [<-|[<-|[<-|[]]]]; reflexivity.
Defined.

(** ** [fetch_song_list]: what it needs and what it leaves alone *)

Section PlaylistMore.
Context `{OsPath} `{Parsers}.

Ltac run_fetch :=
  unfold Main.fetch_song_list, listdir, read_excel; run_py.

(** X14.  [fetch_song_list] only reads: whatever the configuration, the label
    and the outcome, the files and the printed output are as before. *)
Theorem fetch_song_list_read_only (configs : yaml) (emo_class : string) (w : Os.world) :
  snd (Main.fetch_song_list configs emo_class w) = w.
Proof.
  run_fetch.
  destruct (getitem configs "data") as [data|e]; simpl; [|done].
  destruct (getitem data "Songs") as [songs|e]; simpl; [|done].
  destruct songs as [| | |root| |]; simpl; try done.
  destruct (files w !! os_path_join root emo_class) as [[content|entries]|]; simpl;
    try done.
  destruct entries as [|first rest]; simpl; [done|].
  destruct (files w !! os_path_join (os_path_join root emo_class) first)
    as [[content|entries]|]; simpl; try done.
  destruct (excel_parse content) as [table|]; simpl; [|done].
  by destruct (drop "ID" table).
Qed.

(** X15.  When [fetch_song_list] returns a table, the table has no [ID]
    column, and it is what is left of the table in the first entry of the
    label's directory, which had one. *)
Theorem fetch_song_list_returns_first_table (configs : yaml) (emo_class : string)
    (w w' : Os.world) (df : DataFrame) :
  Main.fetch_song_list configs emo_class w = (Return df, w') ->
  ~ In "ID" (columns df)
  /\ exists data root first rest content table,
       getitem configs "data" = Return data
       /\ getitem data "Songs" = Return (YStr root)
       /\ files w !! os_path_join root emo_class = Some (Dir (first :: rest))
       /\ files w !! os_path_join (os_path_join root emo_class) first
          = Some (File content)
       /\ excel_parse content = Some table
       /\ In "ID" (columns table)
       /\ drop "ID" table = Return df.
Proof.
  run_fetch.
  destruct (getitem configs "data") as [data|e] eqn:Hdata; simpl; [|discriminate].
  destruct (getitem data "Songs") as [songs|e] eqn:Hsongs; simpl; [|discriminate].
  destruct songs as [| | |root| |]; simpl; try discriminate.
  destruct (files w !! os_path_join root emo_class) as [[content|entries]|] eqn:Hdir;
    simpl; try discriminate.
  destruct entries as [|first rest]; simpl; [discriminate|].
  destruct (files w !! os_path_join (os_path_join root emo_class) first)
    as [[content|entries]|] eqn:Hfile; simpl; try discriminate.
  destruct (excel_parse content) as [table|] eqn:Hparse; simpl; [|discriminate].
  destruct (drop "ID" table) as [df'|e] eqn:Hdrop; simpl; [|discriminate].
  intros [= <- <-].
  assert (Hid : In "ID" (columns table)).
  { unfold drop in Hdrop.
    destruct (existsb (String.eqb "ID") (columns table)) eqn:Hex; [|discriminate].
    apply existsb_exists in Hex as (c & Hc & Heq). apply String.eqb_eq in Heq.
    by subst c. }
  destruct (drop_spec "ID" table Hid) as (df0 & Hdrop0 & _ & Hgone & _).
  rewrite Hdrop in Hdrop0. injection Hdrop0 as <-.
  split; [exact Hgone|]. exists data, root, first, rest, content, table. by repeat split.
Qed.

(** X16.  Without a [data] entry in the configuration, or without a [Songs]
    entry under it, [fetch_song_list] raises the lookup's exception for every
    label and does not look at the disk. *)
Theorem fetch_song_list_unconfigured (configs : yaml) (emo_class : string)
    (w : Os.world) (e : exn) :
  getitem configs "data" = Raise e
  \/ (exists data, getitem configs "data" = Return data
                   /\ getitem data "Songs" = Raise e) ->
  Main.fetch_song_list configs emo_class w = (Raise e, w).
Proof.
  intros [Hdata|(data & Hdata & Hsongs)]; run_fetch; rewrite Hdata; simpl; [done|].
  by rewrite Hsongs.
Qed.


End PlaylistMore.

Lemma fetch_song_list_returns_first_table_witness :
  exists table,
    @excel_parse Demo.parsers
      ("ID,Title,Artist" +:+ Demo.nl +:+ "1,Walking on sunshine,Katrina"
       +:+ Demo.nl +:+ "2,Lovely day,Bill Withers" +:+ Demo.nl) = Some table
    /\ In "ID" (columns table).
Proof.
  destruct (@fetch_song_list_returns_first_table Demo.posix Demo.parsers Demo.configs
              "Happy" Demo.disk Demo.disk
              {| columns := ["Title"; "Artist"];
                 values := [[CStr "Walking on sunshine"; CStr "Katrina"];
                            [CStr "Lovely day"; CStr "Bill Withers"]] |}
              eq_refl)
    as (_ & data & root & first & rest & content & table
        & Hdata & Hsongs & Hdir & Hfile & Hparse & Hid & _).
  exists table. split; [|exact Hid].
  injection Hdata as <-. injection Hsongs as <-.
  vm_compute in Hdir. injection Hdir as <- <-.
  vm_compute in Hfile. injection Hfile as <-. exact Hparse.
Defined.

Lemma fetch_song_list_unconfigured_witness :
  @Main.fetch_song_list Demo.posix Demo.parsers (YMap [("data", YMap [])]) "Happy" Demo.disk
  = (Raise (KeyError "Songs"), Demo.disk).
Proof.
  exact (@fetch_song_list_unconfigured Demo.posix Demo.parsers (YMap [("data", YMap [])])
           "Happy" Demo.disk (KeyError "Songs")
           (or_intror (ex_intro _ (YMap []) (conj eq_refl eq_refl)))).
Defined.


(** ** [get_execution_time] *)

Import Elapsed.

Lemma split_on_whole (sep : ascii) (s : string) :
  count_char sep s = 0 -> split_on sep s = [s].
Proof.
  intros Hfree. rewrite <- (append_empty_r s) at 1.
  rewrite split_on_app by done. simpl. by rewrite append_empty_r.
Qed.

Lemma no_dot_uint (d : Decimal.uint) : count_char "." (NilEmpty.string_of_uint d) = 0.
Proof. induction d; simpl; done. Qed.

Lemma no_dot_decimal_Z (z : Z) : count_char "." (decimal_Z z) = 0.
Proof.
  unfold decimal_Z, NilZero.string_of_int, NilZero.string_of_uint.
  destruct (Z.to_int z) as [d|d]; destruct d; simpl; auto using no_dot_uint.
Qed.

Lemma no_dot_zeros (n : nat) : count_char "." (zeros n) = 0.
Proof. induction n as [|n IH]; [done|]. simpl. by rewrite count_char_app, IH. Qed.

Lemma no_dot_zero_pad (width : nat) (z : Z) : count_char "." (zero_pad width z) = 0.
Proof.
  unfold zero_pad. rewrite !count_char_app, no_dot_zeros, no_dot_decimal_Z.
  by destruct (z <? 0)%Z.
Qed.

Lemma no_dot_str_whole (d s : Z) :
  count_char "." (str {| days := d; seconds := s; microseconds := 0 |}) = 0.
Proof.
  unfold str. cbn [days seconds microseconds]. rewrite Z.eqb_refl.
  destruct (_ =? 0)%Z;
    rewrite !count_char_app, ?no_dot_decimal_Z, ?no_dot_zero_pad; [done|].
  by destruct (_ =? 1)%Z.
Qed.

(** For [int] arguments the text has no fraction to cut: the call gives the
    whole [str] of the [timedelta]. *)
Lemma get_execution_time_seconds (a b : Z) :
  (Z.abs ((b - a) / 86400) <= 999999999)%Z ->
  get_execution_time (Seconds a) (Seconds b)
  = Text (str {| days := (b - a) / 86400; seconds := (b - a) mod 86400;
                 microseconds := 0 |}).
Proof.
  intros Hrange. unfold get_execution_time, sub, timedelta_of_seconds.
  destruct (Z.gtb_spec (Z.abs ((b - a) / 86400)) 999999999) as [Hgt|_]; [lia|].
  rewrite split_on_whole; [reflexivity|]. apply no_dot_str_whole.
Qed.

Lemma two_digits_below_100 (z : Z) :
  (0 <= z < 100)%Z -> String.length (zero_pad 2 z) = 2.
Proof.
  intros Hz.
  assert (Hall : forallb (fun n => Nat.eqb (String.length (zero_pad 2 (Z.of_nat n))) 2)
                   (seq 0 100) = true) by (vm_compute; reflexivity).
  rewrite forallb_forall in Hall.
  specialize (Hall (Z.to_nat z)). rewrite Z2Nat.id in Hall by lia.
  apply Nat.eqb_eq, Hall, in_seq. lia.
Qed.

Lemma one_digit_below_10 (z : Z) :
  (0 <= z < 10)%Z -> String.length (decimal_Z z) = 1.
Proof.
  intros Hz.
  assert (Hall : forallb (fun n => Nat.eqb (String.length (decimal_Z (Z.of_nat n))) 1)
                   (seq 0 10) = true) by (vm_compute; reflexivity).
  rewrite forallb_forall in Hall.
  specialize (Hall (Z.to_nat z)). rewrite Z2Nat.id in Hall by lia.
  apply Nat.eqb_eq, Hall, in_seq. lia.
Qed.

(** X18.  Called as its docstring asks, with two [datetime] values,
    [get_execution_time] never returns: it raises [TypeError] for every
    pair, the difference being a [timedelta] already where
    [timedelta(seconds=...)] takes a number.  It raises [TypeError] as well
    when one argument is a [datetime] and the other an [int] count, at the
    subtraction. *)
Theorem get_execution_time_datetime_raises (start finish : instant) :
  (exists t, start = Moment t) \/ (exists t, finish = Moment t) ->
  exists msg, get_execution_time start finish = Error (TypeError msg).
Proof.
  intros [[t ->]|[t ->]].
  - destruct finish as [b|u]; by eexists.
  - destruct start as [a|u]; by eexists.
Qed.

(** X19.  For two counts of seconds less than a day apart, in order, the text
    is [h:mm:ss] for the hours, minutes and seconds of the difference:
    minutes and seconds take two digits, the hours are not padded, so that a
    run under ten hours reads in seven characters. *)
Theorem get_execution_time_within_a_day (start finish : Z) :
  (0 <= finish - start < 86400)%Z ->
  exists h m s : Z,
    (finish - start = 3600 * h + 60 * m + s /\ 0 <= h < 24 /\ 0 <= m < 60 /\ 0 <= s < 60)%Z
    /\ get_execution_time (Seconds start) (Seconds finish)
       = Text (decimal_Z h +:+ ":" +:+ zero_pad 2 m +:+ ":" +:+ zero_pad 2 s)
    /\ String.length (zero_pad 2 m) = 2
    /\ String.length (zero_pad 2 s) = 2
    /\ ((h < 10)%Z -> String.length (decimal_Z h) = 1).
Proof.
  intros Hd.
  set (d := (finish - start)%Z) in *.
  assert (Hday : (d / 86400 = 0)%Z) by (apply Z.div_small; lia).
  assert (Hmod : (d mod 86400 = d)%Z) by (apply Z.mod_small; lia).
  exists (d / 60 / 60)%Z, (d / 60 mod 60)%Z, (d mod 60)%Z.
  pose proof (Z.div_mod d 60 ltac:(lia)) as Hd60.
  pose proof (Z.div_mod (d / 60) 60 ltac:(lia)) as Hd3600.
  pose proof (Z.mod_pos_bound d 60 ltac:(lia)) as Hs.
  pose proof (Z.mod_pos_bound (d / 60) 60 ltac:(lia)) as Hm.
  assert (Hh : (0 <= d / 60 / 60 < 24)%Z).
  { split; [apply Z.div_pos; [apply Z.div_pos|]; lia|].
    apply Z.div_lt_upper_bound; [lia|]. apply Z.div_lt_upper_bound; lia. }
  split; [repeat split; lia|].
  split.
  - rewrite get_execution_time_seconds by (fold d; rewrite Hday; simpl; lia).
    fold d. rewrite Hday, Hmod. reflexivity.
  - split; [apply two_digits_below_100; lia|].
    split; [apply two_digits_below_100; lia|].
    intros Hlt. apply one_digit_below_10. lia.
Qed.

(** X20.  With the two counts swapped, ending up to a day before the start,
    the text is not a negative time: it reads [-1 day, ] followed by the text
    for the difference counted from a day earlier. *)
Theorem get_execution_time_swapped (start finish : Z) :
  (-86400 <= finish - start < 0)%Z ->
  exists clock,
    get_execution_time (Seconds 0) (Seconds (finish - start + 86400)) = Text clock
    /\ get_execution_time (Seconds start) (Seconds finish) = Text ("-1 day, " +:+ clock).
Proof.
  intros Hd.
  set (d := (finish - start)%Z) in *.
  assert (Hday : (d / 86400 = -1)%Z).
  { symmetry. apply (Z.div_unique d 86400 (-1) (d + 86400)); lia. }
  assert (Hmod : (d mod 86400 = d + 86400)%Z).
  { symmetry. apply (Z.mod_unique d 86400 (-1) (d + 86400)); lia. }
  assert (Hday' : ((d + 86400 - 0) / 86400 = 0)%Z) by (apply Z.div_small; lia).
  assert (Hmod' : ((d + 86400 - 0) mod 86400 = d + 86400)%Z)
    by (rewrite Z.sub_0_r; apply Z.mod_small; lia).
  eexists. split.
  - rewrite get_execution_time_seconds by (rewrite Hday'; simpl; lia).
    rewrite Hday', Hmod'. reflexivity.
  - rewrite get_execution_time_seconds by (fold d; rewrite Hday; simpl; lia).
    fold d. rewrite Hday, Hmod. reflexivity.
Qed.

Lemma get_execution_time_datetime_raises_witness :
  exists msg,
    get_execution_time (Moment (mk_datetime 2026 3 7 9 5 0))
                       (Moment (mk_datetime 2026 3 7 9 6 30))
    = Error (TypeError msg).
Proof.
  apply get_execution_time_datetime_raises. left. by eexists.
Defined.

Lemma get_execution_time_within_a_day_witness :
  (0 <= 3761 - 100 < 86400)%Z
  /\ get_execution_time (Seconds 100) (Seconds 3761) = Text "1:01:01".
Proof.
  assert (Hd : (0 <= 3761 - 100 < 86400)%Z) by lia.
  split; [exact Hd|].
  destruct (get_execution_time_within_a_day 100 3761 Hd) as (h & m & s & _ & Hrun & _).
  reflexivity.
Defined.

Lemma get_execution_time_swapped_witness :
  (-86400 <= 4 - 5 < 0)%Z
  /\ exists clock,
       get_execution_time (Seconds 0) (Seconds (4 - 5 + 86400)) = Text clock
       /\ get_execution_time (Seconds 5) (Seconds 4) = Text ("-1 day, " +:+ clock).
Proof.
  assert (Hd : (-86400 <= 4 - 5 < 0)%Z) by lia.
  split; [exact Hd|]. exact (get_execution_time_swapped 5 4 Hd).
Defined.

(** ** [preprocess] and [main] *)

Section PageFacts.
Context {M : Main.Model} {T : App.TensorOps} `{OsPath} `{Parsers}.

Lemma classifer_of_four_classes (t : Main.tensor) :
  four_class_model ->
  Main.tensor_shape t = [1; 48; 48; 1] ->
  exists name, Main.classifer t = Return name /\ In name emotion_labels.
Proof.
  intros Hmodel Hshape.
  destruct (Hmodel t Hshape) as (row & Hpredict & Hlen).
  destruct row as [|x xs]; [discriminate Hlen|].
  assert (Harg : Main.argmax [x :: xs] = Return (Main.argmax_from x 0 1 xs)).
  { unfold Main.argmax. simpl. by rewrite app_nil_r. }
  pose proof (argmax_bound _ _ Harg) as Hbound.
  simpl in Hbound. rewrite app_nil_r in Hbound. simpl in Hlen.
  destruct (class_dict_total (Main.argmax_from x 0 1 xs)) as (name & Hname & Hin); [lia|].
  exists name. split; [|exact Hin].
  unfold Main.classifer. by rewrite Hpredict, Harg, Hname.
Qed.

Lemma preprocess_shape (image : Main.tensor) (h w : nat) :
  App.shape_laws ->
  Main.tensor_shape image = [h; w; 3] -> 0 < h -> 0 < w ->
  exists t, App.preprocess image = Return t /\ Main.tensor_shape t = [1; 48; 48; 1].
Proof.
  intros Hlaws Hshape Hh Hw. unfold App.preprocess.
  destruct (App.img_to_array_shape Hlaws image h w 3 Hshape) as (t1 & -> & Hs1).
  destruct (App.resize_shape Hlaws t1 h w 3 Hs1 Hh Hw) as (t2 & Hr2 & Hs2).
  destruct (App.grayscale_shape Hlaws t2 48 48 Hs2) as (t3 & Hr3 & Hs3).
  destruct (App.reshape_shape Hlaws t3 [1; 48; 48; 1]) as (t4 & Hr4 & Hs4).
  { rewrite Hs3. reflexivity. }
  exists t4. split; [|exact Hs4].
  unfold mbind, App.outcome_bind. by rewrite Hr2, Hr3, Hr4.
Qed.

(** X21.  What [preprocess] makes of a picture with three colour channels is
    what the classifier takes: a tensor of shape (1, 48, 48, 1), whatever the
    height and width of the picture, and [classifer] answers it with one of
    the four labels. *)
Theorem preprocess_feeds_classifer (image : Main.tensor) (h w : nat) :
  App.shape_laws -> four_class_model ->
  Main.tensor_shape image = [h; w; 3] -> 0 < h -> 0 < w ->
  exists t name,
    App.preprocess image = Return t
    /\ Main.tensor_shape t = [1; 48; 48; 1]
    /\ Main.classifer t = Return name
    /\ In name emotion_labels.
Proof.
  intros Hlaws Hmodel Hshape Hh Hw.
  destruct (preprocess_shape image h w Hlaws Hshape Hh Hw) as (t & Hpre & Hst).
  destruct (classifer_of_four_classes t Hmodel Hst) as (name & Hname & Hin).
  by exists t, name.
Qed.

(** X22.  Until a picture is taken, [main] renders the title and the camera
    control and nothing else: it decodes nothing, asks the model nothing and
    does not look for songs. *)
Theorem main_before_capture (configs : yaml) (s : App.session) :
  App.camera s = None ->
  App.main configs s
  = (Return tt,
     {| App.disk := App.disk s; App.camera := App.camera s;
        App.page := App.page s
                    ++ [App.Markdown
                          "<h1 style='text-align: center; color: white;'>Music Therapy</h1>"
                          true];
        App.sidebar := App.sidebar s ++ [App.CameraInput "Scan Face" "hidden"] |}).
Proof.
  intros Hnone. unfold App.main, App.st_markdown, App.render, App.sidebar_camera_input.
  run_py. by rewrite Hnone.
Qed.

(** X23.  Once a picture with three colour channels is there, [main] always
    shows a mood: every label the classifier can return has its branch.  The
    line is green for [Happy], plain for [Neutral] and red for [Angry] and
    [Sad].  The song table follows it; when the lookup of the songs raises,
    the exception leaves [main] with the mood line already on the page. *)
Theorem main_after_capture (configs : yaml) (s : App.session) (bytes_data : string)
    (image : Main.tensor) (h w : nat) :
  App.shape_laws -> four_class_model ->
  App.camera s = Some bytes_data ->
  App.decode_image bytes_data 3 = Return image ->
  Main.tensor_shape image = [h; w; 3] -> 0 < h -> 0 < w ->
  exists emo_class,
    In emo_class emotion_labels
    /\ match Main.fetch_song_list configs emo_class (App.disk s) with
       | (Return song_list_df, d) =>
           App.main configs s
           = (Return tt,
              {| App.disk := d; App.camera := App.camera s;
                 App.page :=
                   App.page s
                   ++ [App.Markdown
                         "<h1 style='text-align: center; color: white;'>Music Therapy</h1>"
                         true;
                       App.Subheader (App.mood_line emo_class);
                       App.Dataframe song_list_df];
                 App.sidebar := App.sidebar s ++ [App.CameraInput "Scan Face" "hidden"] |})
       | (Raise e, d) =>
           App.main configs s
           = (Raise e,
              {| App.disk := d; App.camera := App.camera s;
                 App.page :=
                   App.page s
                   ++ [App.Markdown
                         "<h1 style='text-align: center; color: white;'>Music Therapy</h1>"
                         true;
                       App.Subheader (App.mood_line emo_class)];
                 App.sidebar := App.sidebar s ++ [App.CameraInput "Scan Face" "hidden"] |})
       end.
Proof.
  intros Hlaws Hmodel Hcamera Hdecode Hshape Hh Hw.
  destruct (preprocess_shape image h w Hlaws Hshape Hh Hw) as (t & Hpre & Hst).
  destruct (classifer_of_four_classes t Hmodel Hst) as (emo_class & Hemo & Hin).
  exists emo_class. split; [exact Hin|].
  unfold App.main, App.st_markdown, App.st_subheader, App.st_dataframe, App.render,
    App.sidebar_camera_input, App.on_disk.
  run_py. rewrite Hcamera, Hdecode, Hpre, Hemo.
  destruct Hin as [<-|[<-|[<-|[<-|[]]]]]; simpl;
    destruct (Main.fetch_song_list configs _ (App.disk s)) as [[df|e] d]; simpl;
    rewrite <- ?app_assoc; reflexivity.
Qed.

End PageFacts.

Lemma shape_ops_laws : @App.shape_laws Demo.brightness_model Studio.shape_ops.
Proof.
  split; simpl.
  - intros t h w c Hshape. unfold Studio.to_array. rewrite Hshape. eauto.
  - intros t h w c Hshape Hh Hw. unfold Studio.resize. rewrite Hshape.
    apply Nat.ltb_lt in Hh, Hw. rewrite Hh, Hw. simpl. eauto.
  - intros t h w Hshape. unfold Studio.grayscale. rewrite Hshape. eauto.
  - intros t shape Hsize. unfold Studio.reshaped. rewrite Hsize, Nat.eqb_refl. eauto.
Qed.

Lemma preprocess_feeds_classifer_witness :
  exists t name,
    @App.preprocess Demo.brightness_model Studio.shape_ops
      {| Demo.dims := [480; 640; 3]; Demo.brightness := 200 |} = Return t
    /\ Demo.dims t = [1; 48; 48; 1]
    /\ @Main.classifer Demo.brightness_model t = Return name
    /\ In name emotion_labels.
Proof.
  exact (@preprocess_feeds_classifer Demo.brightness_model Studio.shape_ops
           {| Demo.dims := [480; 640; 3]; Demo.brightness := 200 |} 480 640
           shape_ops_laws brightness_model_four_class eq_refl
           ltac:(lia) ltac:(lia)).
Defined.

Lemma main_before_capture_witness :
  App.camera Studio.before_capture = None
  /\ snd (@App.main Demo.brightness_model Studio.shape_ops Demo.posix Demo.parsers
            Demo.configs Studio.before_capture)
     = {| App.disk := Demo.disk; App.camera := None;
          App.page := [App.Markdown
                         "<h1 style='text-align: center; color: white;'>Music Therapy</h1>"
                         true];
          App.sidebar := [App.CameraInput "Scan Face" "hidden"] |}.
Proof.
  split; [reflexivity|].
  by rewrite (@main_before_capture Demo.brightness_model Studio.shape_ops Demo.posix
                Demo.parsers Demo.configs Studio.before_capture eq_refl).
Defined.

Lemma main_after_capture_witness :
  exists emo_class,
    In emo_class emotion_labels
    /\ match @Main.fetch_song_list Demo.posix Demo.parsers Demo.configs emo_class Demo.disk
       with
       | (Return song_list_df, d) =>
           fst (@App.main Demo.brightness_model Studio.shape_ops Demo.posix Demo.parsers
                  Demo.configs Studio.after_capture) = Return tt
       | (Raise e, d) =>
           fst (@App.main Demo.brightness_model Studio.shape_ops Demo.posix Demo.parsers
                  Demo.configs Studio.after_capture) = Raise e
       end.
Proof.
  destruct (@main_after_capture Demo.brightness_model Studio.shape_ops Demo.posix
              Demo.parsers Demo.configs Studio.after_capture Studio.picture
              {| Demo.dims := [480; 640; 3]; Demo.brightness := 200 |} 480 640
              shape_ops_laws brightness_model_four_class eq_refl eq_refl eq_refl
              ltac:(lia) ltac:(lia)) as (emo_class & Hin & Hmain).
  exists emo_class. split; [exact Hin|].
  revert Hmain. change (App.disk Studio.after_capture) with Demo.disk.
  destruct (@Main.fetch_song_list Demo.posix Demo.parsers Demo.configs emo_class Demo.disk)
    as [[df|e] d]; intros ->; reflexivity.
Defined.

Example main_shows_happy_songs :
  App.page (snd (@App.main Demo.brightness_model Studio.shape_ops Demo.posix Demo.parsers
                   Demo.configs Studio.after_capture))
  = [App.Markdown "<h1 style='text-align: center; color: white;'>Music Therapy</h1>" true;
     App.Subheader "Your Mood is :green[Happy]";
     App.Dataframe {| columns := ["Title"; "Artist"];
                      values := [[CStr "Walking on sunshine"; CStr "Katrina"];
                                 [CStr "Lovely day"; CStr "Bill Withers"]] |}].
Proof. reflexivity. Qed.

(** X24.  A run of a day or more is told in days: the text is the number of
    days, [ day, ] or [ days, ], and then the text for what is left of the
    last day, so that the hours never pass 23. *)
Theorem get_execution_time_days (start finish : Z) :
  (86400 <= finish - start)%Z ->
  ((finish - start) / 86400 <= 999999999)%Z ->
  exists clock,
    get_execution_time (Seconds 0) (Seconds ((finish - start) mod 86400)) = Text clock
    /\ get_execution_time (Seconds start) (Seconds finish)
       = Text (decimal_Z ((finish - start) / 86400)
               +:+ (if ((finish - start) / 86400 =? 1)%Z then " day, " else " days, ")
               +:+ clock).
Proof.
  intros Hd Hmax.
  set (d := (finish - start)%Z) in *.
  assert (Hdays : (1 <= d / 86400)%Z) by (apply Z.div_le_lower_bound; lia).
  pose proof (Z.mod_pos_bound d 86400 ltac:(lia)) as Hrest.
  assert (Hday' : ((d mod 86400 - 0) / 86400 = 0)%Z)
    by (rewrite Z.sub_0_r; apply Z.div_small; lia).
  assert (Hmod' : ((d mod 86400 - 0) mod 86400 = d mod 86400)%Z)
    by (rewrite Z.sub_0_r; apply Z.mod_small; lia).
  eexists. split.
  - rewrite get_execution_time_seconds by (rewrite Hday'; simpl; lia).
    rewrite Hday', Hmod'. reflexivity.
  - rewrite get_execution_time_seconds by (fold d; lia).
    fold d. unfold str. cbn [days seconds microseconds].
    destruct (Z.eqb_spec (d / 86400) 0) as [Hzero|_]; [lia|].
    rewrite Z.abs_eq by lia.
    destruct (d / 86400 =? 1)%Z; reflexivity.
Qed.

Lemma get_execution_time_days_witness :
  (86400 <= 200000 - 0)%Z
  /\ get_execution_time (Seconds 0) (Seconds 200000) = Text "2 days, 7:33:20".
Proof.
  assert (Hd : (86400 <= 200000 - 0)%Z) by lia.
  split; [exact Hd|].
  destruct (get_execution_time_days 0 200000 Hd ltac:(vm_compute; discriminate))
    as (clock & Hclock & Hrun).
  rewrite Hrun. vm_compute in Hclock. injection Hclock as <-. reflexivity.
Defined.

(** ** Connection strings: nothing is escaped *)

Lemma append_assoc (a b c : string) : (a +:+ b) +:+ c = a +:+ b +:+ c.
Proof.
  induction a as [|x a IH]; [reflexivity|].
  change (String x ((a +:+ b) +:+ c) = String x (a +:+ b +:+ c)). by rewrite IH.
Qed.

Lemma key_value_app (key value : string) :
  count_char "=" key = 0 -> key_value (key +:+ "=" +:+ value) = (key, value).
Proof.
  induction key as [|c key IH]; [reflexivity|]. intros Hfree.
  change (String c key +:+ "=" +:+ value) with (String c (key +:+ "=" +:+ value)).
  cbn [count_char] in Hfree. cbn [key_value].
  destruct (Ascii.eqb_spec "=" c) as [<-|Hne]; [discriminate Hfree|].
  destruct (Ascii.eqb_spec c "=") as [->|_]; [done|].
  by rewrite (IH Hfree).
Qed.

(** X25.  The arguments go into the connection string as they are.  A
    database name that goes on with [;key=value] gives the trusted-connection
    string a field [key] of its own: with [UID] and [PWD] for keys, a login
    that the two-argument overload was not given by name. *)
Theorem get_mssql_db_connection_passes_fields_on (server db_name key value : string) :
  count_char ";" server = 0 -> count_char ";" db_name = 0 ->
  count_char ";" key = 0 -> count_char "=" key = 0 -> count_char ";" value = 0 ->
  fields (Utils.trusted_string server (db_name +:+ ";" +:+ key +:+ "=" +:+ value))
  = [("Driver", "SQL Server"); ("SERVER", server); ("DATABASE", db_name);
     (key, value); ("Trusted_Connection", "yes")].
Proof.
  intros Hs Hd Hk Hk' Hv.
  unfold fields, Utils.trusted_string. simpl.
  rewrite (split_on_app _ server) by done. simpl.
  rewrite !append_assoc.
  rewrite (split_on_app _ db_name) by done. simpl.
  replace ("" +:+ key +:+ "=" +:+ value +:+ ";Trusted_Connection=yes;")
    with ((key +:+ "=" +:+ value) +:+ ";Trusted_Connection=yes;")
    by (by rewrite !append_assoc).
  rewrite (split_on_app _ (key +:+ "=" +:+ value))
    by (by rewrite !count_char_app, Hk, Hv).
  simpl. rewrite !append_empty_r.
  assert (Hfield : (key +:+ "=" +:+ value =? "") = false) by (by destruct key).
  rewrite Hfield. cbn [negb map]. by rewrite key_value_app.
Qed.

Lemma get_mssql_db_connection_passes_fields_on_witness :
  fields (Utils.trusted_string "10.0.0.5" "Music;UID=sa;PWD=letmein")
  = [("Driver", "SQL Server"); ("SERVER", "10.0.0.5"); ("DATABASE", "Music");
     ("UID", "sa"); ("PWD", "letmein"); ("Trusted_Connection", "yes")]
  /\ fields (Utils.trusted_string "10.0.0.5" ("Music" +:+ ";" +:+ "UID" +:+ "=" +:+ "sa"))
     = [("Driver", "SQL Server"); ("SERVER", "10.0.0.5"); ("DATABASE", "Music");
        ("UID", "sa"); ("Trusted_Connection", "yes")].
Proof.
  split; [reflexivity|].
  exact (get_mssql_db_connection_passes_fields_on "10.0.0.5" "Music" "UID" "sa"
           eq_refl eq_refl eq_refl eq_refl eq_refl).
Defined.
